(** * replication-manager: cluster predicates and server accessors

    A shallow embedding of the aggregate predicates of [Cluster]
    (HasAllDbUp, IsProvisioned, IsInIgnoredHosts, ...) and of the
    [ServerMonitor] accessors of cluster/srv_get.go (GetSlaveStatus,
    GetReplicationDelay, GetSibling, GetPrometheusMetrics, GetNewDBConn),
    with the properties the specification states about them. *)

From Stdlib Require Import ZArith NArith Ascii String List Bool Lia.
From Stdlib Require Import Permutation DecimalString DecimalZ DecimalN DecimalPos.
From stdpp Require Import base option list gmap strings.
Import ListNotations.

Local Open Scope list_scope.
Local Open Scope string_scope.

(** ** Go values *)

(** A Go slice is either [nil] or a (possibly empty) backing sequence:
    [None] is the nil slice, [Some []] an allocated slice of length 0. *)
Module Slice.

Definition t (A : Type) : Type := option (list A).

Definition nil {A : Type} : t A := None.

(** [s == nil] *)
Definition is_nil {A : Type} (s : t A) : bool :=
  match s with None => true | Some _ => false end.

(** The elements visited by [for _, x := range s]: none for a nil slice. *)
Definition range {A : Type} (s : t A) : list A :=
  match s with None => [] | Some l => l end.

(** [len(s)] *)
Definition len {A : Type} (s : t A) : nat := length (range s).

End Slice.

(** ** strings.Split and strings.Join for a one-byte separator

    The program only splits on [","] and ["."].  [Split s sep] is Go's
    [strings.Split(s, sep)] for such a separator: the fields between the
    occurrences of [sep], so [n] occurrences give [n + 1] fields and the
    empty string gives the single field [""]. *)
Module strings.

Fixpoint Split (s : string) (sep : ascii) : list string :=
  match s with
  | EmptyString => [EmptyString]
  | String c rest =>
      if Ascii.eqb c sep then EmptyString :: Split rest sep
      else match Split rest sep with
           | [] => [String c EmptyString]
           | field :: fields => String c field :: fields
           end
  end.

Fixpoint Join (fields : list string) (sep : ascii) : string :=
  match fields with
  | [] => EmptyString
  | [field] => field
  | field :: rest => field ++ String sep (Join rest sep)
  end.

(** [strings.Contains(s, sep)] for a one-byte [sep]. *)
Fixpoint ContainsByte (s : string) (sep : ascii) : bool :=
  match s with
  | EmptyString => false
  | String c rest => Ascii.eqb c sep || ContainsByte rest sep
  end.

(** [strings.Count(s, sep)] for a one-byte [sep]. *)
Fixpoint Count (s : string) (sep : ascii) : nat :=
  match s with
  | EmptyString => 0
  | String c rest => (if Ascii.eqb c sep then 1 else 0) + Count rest sep
  end.

End strings.

Definition comma : ascii := ","%char.
Definition dot : ascii := "."%char.


(** ** Data model *)

(** database/sql's nullable columns: the value and whether it was reported. *)
Module sql.

Record NullString : Type := mkNullString {
  NullString_String : string;
  NullString_Valid : bool
}.

Record NullInt64 : Type := mkNullInt64 {
  Int64 : Z;
  Valid : bool
}.

End sql.

(** Go's [int64] and [uint64] ranges, values carried as [Z] and [N]. *)
Definition int64_range (z : Z) : Prop := (- 2 ^ 63 <= z < 2 ^ 63)%Z.

Module dbhelper.

(** One replication channel as reported by [SHOW SLAVE STATUS]; only the
    columns read by the accessors below. *)
Record SlaveStatus : Type := mkSlaveStatus {
  ConnectionName : sql.NullString;
  MasterHost : sql.NullString;
  MasterPort : sql.NullString;
  MasterServerID : N;
  SecondsBehindMaster : sql.NullInt64;
  UsingGtid : sql.NullString
}.

End dbhelper.

Module config.

Record Config : Type := mkConfig {
  ProvOrchestrator : string;
  Hosts : string;
  IgnoreSrv : string;
  BackupServers : string;
  IgnoreSrvRO : string;
  PrefMaster : string;
  MonitorCapture : bool;
  MasterSlavePgStream : bool;
  MasterSlavePgLogical : bool
}.

(** Modelled from the spec: the constant [config.ConstOrchestratorOnPremise]
    is declared outside the files at hand; the spec names the selector value
    "on-premise".  No property below depends on its spelling. *)
Definition ConstOrchestratorOnPremise : string := "on-premise".

End config.

(** Modelled from the spec: the connection security state of a node, the
    enumeration Current, Old, None ([ConstTLSCurrentConfig],
    [ConstTLSOldConfig], [ConstTLSNoConfig] in the code, declared outside the
    files at hand). *)
Inductive TLSConfig : Type :=
  | ConstTLSCurrentConfig
  | ConstTLSOldConfig
  | ConstTLSNoConfig.

(** Modelled from the spec: the health states Failed and Suspect
    ([stateFailed], [stateSuspect] in the code); [State] is a string. *)
Definition stateFailed : string := "Failed".
Definition stateSuspect : string := "Suspect".

(** A monitored database server.  The three cookies are modelled from the
    spec as independent boolean flags of the node. *)
Record ServerMonitor : Type := mkServerMonitor {
  URL : string;
  Name : string;
  State : string;
  ServerID : N;
  ReplicationSourceName : string;
  Replications : Slice.t dbhelper.SlaveStatus;
  InCaptureMode : bool;
  TLSConfigUsed : TLSConfig;
  DSN : string;
  cookie_prov : bool;
  cookie_restart : bool;
  cookie_reprov : bool
}.

(** Modelled from the spec: [HasProvisionCookie], [HasRestartCookie] and
    [HasReprovCookie] read the node's flag; [SetProvisionCookie] sets the
    provisioned flag (setting a set flag changes nothing) and
    [DelRestartCookie] clears the restart request. *)
Definition HasProvisionCookie (server : ServerMonitor) : bool := cookie_prov server.
Definition HasRestartCookie (server : ServerMonitor) : bool := cookie_restart server.
Definition HasReprovCookie (server : ServerMonitor) : bool := cookie_reprov server.

Definition SetProvisionCookie (server : ServerMonitor) : ServerMonitor :=
  {| URL := URL server; Name := Name server; State := State server;
     ServerID := ServerID server;
     ReplicationSourceName := ReplicationSourceName server;
     Replications := Replications server;
     InCaptureMode := InCaptureMode server;
     TLSConfigUsed := TLSConfigUsed server; DSN := DSN server;
     cookie_prov := true;
     cookie_restart := cookie_restart server;
     cookie_reprov := cookie_reprov server |}.

Definition DelRestartCookie (server : ServerMonitor) : ServerMonitor :=
  {| URL := URL server; Name := Name server; State := State server;
     ServerID := ServerID server;
     ReplicationSourceName := ReplicationSourceName server;
     Replications := Replications server;
     InCaptureMode := InCaptureMode server;
     TLSConfigUsed := TLSConfigUsed server; DSN := DSN server;
     cookie_prov := cookie_prov server;
     cookie_restart := false;
     cookie_reprov := cookie_reprov server |}.

(** A front-end proxy, with the same cookies. *)
Module Proxy.

Record t : Type := mk {
  State : string;
  cookie_prov : bool;
  cookie_restart : bool;
  cookie_reprov : bool
}.

Definition HasProvisionCookie (px : t) : bool := cookie_prov px.
Definition HasRestartCookie (px : t) : bool := cookie_restart px.
Definition HasReprovCookie (px : t) : bool := cookie_reprov px.

Definition SetProvisionCookie (px : t) : t :=
  {| State := State px; cookie_prov := true;
     cookie_restart := cookie_restart px; cookie_reprov := cookie_reprov px |}.

End Proxy.

(** A line written by [cluster.LogPrintf]: the level and the message.  The
    level constant is declared outside the files at hand; its spelling plays
    no role below. *)
Definition LogEntry : Type := (string * string)%type.
Definition LvlInfo : string := "INFO".

Record Cluster : Type := mkCluster {
  Conf : config.Config;
  IsNotMonitoring : bool;
  HaveDBTLSCert : bool;
  Servers : Slice.t ServerMonitor;
  Proxies : Slice.t Proxy.t;
  Log : list LogEntry
}.

Definition withServers (cluster : Cluster) (servers : Slice.t ServerMonitor) : Cluster :=
  {| Conf := Conf cluster; IsNotMonitoring := IsNotMonitoring cluster;
     HaveDBTLSCert := HaveDBTLSCert cluster;
     Servers := servers; Proxies := Proxies cluster; Log := Log cluster |}.

(** ** Aggregate predicates of the cluster

    The predicates are loops with an early return.  The loop
    [for _, x := range xs { if p(x) { return true } }; return false] is
    [existsb p xs], and the loop that returns false at the first [x] with
    [p(x)] and true at the end is its negation. *)

Definition HasServer (cluster : Cluster) (srv : ServerMonitor) : bool :=
  existsb (fun sv => URL sv =? URL srv) (Slice.range (Servers cluster)).

(** [for _, ihost := range ihosts { if URL == ihost || Name == ihost
    { return true } }; return false] *)
Definition inHostList (ihosts : list string) (server : ServerMonitor) : bool :=
  existsb (fun ihost => (URL server =? ihost) || (Name server =? ihost)) ihosts.

Definition IsInIgnoredHosts (cluster : Cluster) (server : ServerMonitor) : bool :=
  let ihosts := strings.Split (config.IgnoreSrv (Conf cluster)) comma in
  inHostList ihosts server.

Definition IsInPreferedBackupHosts (cluster : Cluster) (server : ServerMonitor) : bool :=
  let ihosts := strings.Split (config.BackupServers (Conf cluster)) comma in
  inHostList ihosts server.

Definition IsInIgnoredReadonly (cluster : Cluster) (server : ServerMonitor) : bool :=
  let ihosts := strings.Split (config.IgnoreSrvRO (Conf cluster)) comma in
  inHostList ihosts server.

Definition IsInPreferedHosts (cluster : Cluster) (server : ServerMonitor) : bool :=
  let ihosts := strings.Split (config.PrefMaster (Conf cluster)) comma in
  inHostList ihosts server.

Definition IsInCaptureMode (cluster : Cluster) : bool :=
  if negb (config.MonitorCapture (Conf cluster))
     || IsNotMonitoring cluster
     || (0 <? Slice.len (Servers cluster))%nat
  then false
  else existsb InCaptureMode (Slice.range (Servers cluster)).

Definition HasAllDbUp (cluster : Cluster) : bool :=
  if Slice.is_nil (Servers cluster) then false
  else negb (existsb (fun s => (State s =? stateFailed) || (State s =? stateSuspect))
                     (Slice.range (Servers cluster))).

Definition HasRequestDBRestart (cluster : Cluster) : bool :=
  if Slice.is_nil (Servers cluster) then false
  else existsb HasRestartCookie (Slice.range (Servers cluster)).

Definition HasRequestDBRollingRestart (cluster : Cluster) : bool :=
  let ret := true in
  if Slice.is_nil (Servers cluster) then false
  else if existsb (fun s => negb (HasRestartCookie s)) (Slice.range (Servers cluster))
       then false
       else ret.

Definition HasRequestDBRollingReprov (cluster : Cluster) : bool :=
  let ret := true in
  if Slice.is_nil (Servers cluster) then false
  else if existsb (fun s => negb (HasReprovCookie s)) (Slice.range (Servers cluster))
       then false
       else ret.

Definition HasRequestDBReprov (cluster : Cluster) : bool :=
  existsb HasReprovCookie (Slice.range (Servers cluster)).

Definition HasRequestProxiesRestart (cluster : Cluster) : bool :=
  existsb Proxy.HasRestartCookie (Slice.range (Proxies cluster)).

Definition HasRequestProxiesReprov (cluster : Cluster) : bool :=
  existsb Proxy.HasReprovCookie (Slice.range (Proxies cluster)).

(** ** IsProvisioned

    The only predicate that writes: a node or proxy found running without
    its provision cookie gets the cookie and a log line.  Servers and
    proxies are held by pointer, so the writes made before an early
    [return false] stay; the function is modelled as returning its result
    together with the cluster after the call. *)
Section Provisioning.

(** [ServerMonitor.IsRunning] and the proxies' [IsRunning] are defined
    outside the files at hand; they are parameters here. *)
Variable IsRunning : ServerMonitor -> bool.
Variable ProxyIsRunning : Proxy.t -> bool.

(** The loop over [cluster.Servers]: the result ([false] on the early
    return), the servers after the loop and the lines logged. *)
Fixpoint provisionServers (dbs : list ServerMonitor)
  : bool * list ServerMonitor * list LogEntry :=
  match dbs with
  | [] => (true, [], [])
  | db :: rest =>
      if negb (HasProvisionCookie db) then
        if IsRunning db then
          let db' := SetProvisionCookie db in
          let line := (LvlInfo, "Can DB Connect creating cookie state:" ++ State db') in
          let '(ok, rest', lines) := provisionServers rest in
          (ok, db' :: rest', line :: lines)
        else (false, db :: rest, [])
      else
        let '(ok, rest', lines) := provisionServers rest in
        (ok, db :: rest', lines)
  end.

(** The loop over [cluster.Proxies]. *)
Fixpoint provisionProxies (pxs : list Proxy.t)
  : bool * list Proxy.t * list LogEntry :=
  match pxs with
  | [] => (true, [], [])
  | px :: rest =>
      if negb (Proxy.HasProvisionCookie px) then
        if ProxyIsRunning px then
          let px' := Proxy.SetProvisionCookie px in
          let line := (LvlInfo, "Can Proxy Connect creating cookie state:" ++ Proxy.State px') in
          let '(ok, rest', lines) := provisionProxies rest in
          (ok, px' :: rest', line :: lines)
        else (false, px :: rest, [])
      else
        let '(ok, rest', lines) := provisionProxies rest in
        (ok, px :: rest', lines)
  end.

(** Writing through the pointers of a slice keeps its nil-ness and length. *)
Definition stored {A : Type} (s : Slice.t A) (elems : list A) : Slice.t A :=
  match s with None => None | Some _ => Some elems end.

Definition IsProvisioned (cluster : Cluster) : bool * Cluster :=
  if config.ProvOrchestrator (Conf cluster) =? config.ConstOrchestratorOnPremise then
    (true, cluster)
  else if config.Hosts (Conf cluster) =? "" then
    (false, cluster)
  else
    let '(ok, dbs, lines) := provisionServers (Slice.range (Servers cluster)) in
    let cluster1 :=
      {| Conf := Conf cluster; IsNotMonitoring := IsNotMonitoring cluster;
         HaveDBTLSCert := HaveDBTLSCert cluster;
         Servers := stored (Servers cluster) dbs;
         Proxies := Proxies cluster;
         Log := (Log cluster ++ lines)%list |} in
    if negb ok then (false, cluster1)
    else
      let '(ok, pxs, lines) := provisionProxies (Slice.range (Proxies cluster1)) in
      (ok,
       {| Conf := Conf cluster1; IsNotMonitoring := IsNotMonitoring cluster1;
          HaveDBTLSCert := HaveDBTLSCert cluster1;
          Servers := Servers cluster1;
          Proxies := stored (Proxies cluster1) pxs;
          Log := (Log cluster1 ++ lines)%list |}).

(** A node passes the check when it has its cookie or answers. *)
Definition serverPasses (db : ServerMonitor) : Prop :=
  HasProvisionCookie db = true \/ IsRunning db = true.

Definition proxyPasses (px : Proxy.t) : Prop :=
  Proxy.HasProvisionCookie px = true \/ ProxyIsRunning px = true.

End Provisioning.

(** ** Replication status accessors (cluster/srv_get.go) *)

(** Go's [errors.New]: an error is its message. *)
Definition error : Type := string.

(** [for _, ss := range server.Replications { if ss.ConnectionName.String
    == name { return &ss, nil } }]: the first record of that name. *)
Fixpoint findChannel (records : list dbhelper.SlaveStatus) (name : string)
  : option dbhelper.SlaveStatus :=
  match records with
  | [] => None
  | ss :: rest =>
      if sql.NullString_String (dbhelper.ConnectionName ss) =? name then Some ss
      else findChannel rest name
  end.

(** The returned pair of a record pointer and an error: [inl ss] is
    [&ss, nil] and [inr e] is [nil, e]. *)
Definition GetSlaveStatus (server : ServerMonitor) (name : string)
  : dbhelper.SlaveStatus + error :=
  let notfound := inr "Empty replications channels" in
  if negb (Slice.is_nil (Replications server)) then
    match findChannel (Slice.range (Replications server)) name with
    | Some ss => inl ss
    | None => notfound
    end
  else notfound.

Definition GetReplicationServerID (server : ServerMonitor) : N :=
  match GetSlaveStatus server (ReplicationSourceName server) with
  | inr sserr => 0%N
  | inl ss => dbhelper.MasterServerID ss
  end.

Definition GetReplicationDelay (server : ServerMonitor) : Z :=
  match GetSlaveStatus server (ReplicationSourceName server) with
  | inr sserr => 0%Z
  | inl ss =>
      if Bool.eqb (sql.Valid (dbhelper.SecondsBehindMaster ss)) false then 0%Z
      else sql.Int64 (dbhelper.SecondsBehindMaster ss)
  end.

Definition GetReplicationMasterHost (server : ServerMonitor) : string :=
  match GetSlaveStatus server (ReplicationSourceName server) with
  | inr sserr => ""
  | inl ss => sql.NullString_String (dbhelper.MasterHost ss)
  end.

Definition GetReplicationMasterPort (server : ServerMonitor) : string :=
  match GetSlaveStatus server (ReplicationSourceName server) with
  | inr sserr => "3306"
  | inl ss => sql.NullString_String (dbhelper.MasterPort ss)
  end.

(** The scan of [GetSibling] over [server.ClusterGroup.Servers]: the first
    node with a status for its own channel, the same upstream identifier and
    another [ServerID]. *)
Fixpoint findSibling (server : ServerMonitor) (ssserver : dbhelper.SlaveStatus)
    (servers : list ServerMonitor) : option ServerMonitor :=
  match servers with
  | [] => None
  | sl :: rest =>
      match GetSlaveStatus sl (ReplicationSourceName sl) with
      | inr err => findSibling server ssserver rest
      | inl sssib =>
          if (dbhelper.MasterServerID sssib =? dbhelper.MasterServerID ssserver)%N
             && negb (ServerID sl =? ServerID server)%N
          then Some sl
          else findSibling server ssserver rest
      end
  end.

(** [ClusterGroup] is the cluster the node belongs to; [None] is Go's nil. *)
Definition GetSibling (ClusterGroup : Cluster) (server : ServerMonitor)
  : option ServerMonitor :=
  match GetSlaveStatus server (ReplicationSourceName server) with
  | inr err => None
  | inl ssserver => findSibling server ssserver (Slice.range (Servers ClusterGroup))
  end.

(** The channel name of a record, as [GetSlaveStatus] compares it. *)
Definition channelName (ss : dbhelper.SlaveStatus) : string :=
  sql.NullString_String (dbhelper.ConnectionName ss).

(** The node has a status record for its own channel and that record names
    [id] as the upstream server identifier. *)
Definition reportsUpstream (sl : ServerMonitor) (id : N) : Prop :=
  exists ss, GetSlaveStatus sl (ReplicationSourceName sl) = inl ss
             /\ dbhelper.MasterServerID ss = id.

(** [sl] qualifies as a sibling of [server]: it reports the upstream
    identifier of [server] under another [ServerID]. *)
Definition siblingOf (server sl : ServerMonitor) : Prop :=
  reportsUpstream sl (GetReplicationServerID server)
  /\ ServerID sl <> ServerID server.

(** [sibling] is the first node of the cluster, in the order of its node
    list, that qualifies as a sibling of [server], and [server] has a
    status record for its own channel. *)
Definition firstSibling (ClusterGroup : Cluster) (server sibling : ServerMonitor)
  : Prop :=
  (exists ss, GetSlaveStatus server (ReplicationSourceName server) = inl ss)
  /\ exists before after,
       Slice.range (Servers ClusterGroup) = (before ++ sibling :: after)%list
       /\ siblingOf server sibling
       /\ forall sl, In sl before -> ~ siblingOf server sl.

(** ** GetPrometheusMetrics *)

Module graphite.

Record Metric : Type := mkMetric {
  Name : string;
  Value : string
}.

End graphite.

Definition dquote : string := String "034"%char EmptyString.
Definition newline : string := String "010"%char EmptyString.

(** Indexing [v[i]] of a slice panics out of range: [None] is the panic. *)
Definition index (v : list string) (i : nat) : option string := v !! i.

(** The exposition line of one metric, [None] when an index is out of
    range. *)
Definition prometheusLine (m : graphite.Metric) : option string :=
  let v := strings.Split (graphite.Name m) dot in
  match index v 2 with
  | None => None
  | Some v2 =>
      if v2 =? "pfs" then
        match index v 3, index v 1 with
        | Some v3, Some v1 =>
            Some (v2 ++ "_" ++ v3 ++ "{instance=" ++ dquote ++ v1 ++ dquote ++ "} "
                  ++ graphite.Value m ++ newline)
        | _, _ => None
        end
      else
        match index v 1 with
        | Some v1 =>
            Some (v2 ++ "{instance=" ++ dquote ++ v1 ++ dquote ++ "} "
                  ++ graphite.Value m ++ newline)
        | None => None
        end
  end.

(** The loop [for _, m := range metrics], accumulating in [s]. *)
Fixpoint appendMetrics (metrics : list graphite.Metric) (s : string) : option string :=
  match metrics with
  | [] => Some s
  | m :: rest =>
      match prometheusLine m with
      | None => None
      | Some line => appendMetrics rest (s ++ line)
      end
  end.

(** [metrics] is what [server.GetDatabaseMetrics()] returned. *)
Definition GetPrometheusMetrics (metrics : list graphite.Metric) : option string :=
  appendMetrics metrics "".

(** The precondition on a metric name: at least three dot-separated fields,
    and at least four when the third one is ["pfs"]. *)
Definition metricNameOk (m : graphite.Metric) : bool :=
  let v := strings.Split (graphite.Name m) dot in
  (3 <=? length v)%nat
  && (negb (nth 2 v "" =? "pfs") || (4 <=? length v)%nat).

(** ** GetNewDBConn *)

Module sqlx.

(** An open connection pool and its maximum connection lifetime in
    nanoseconds ([0]: connections are reused forever). *)
Record DB : Type := mkDB {
  handle : nat;
  ConnMaxLifetime : Z
}.

Definition SetConnMaxLifetime (db : DB) (d : Z) : DB :=
  {| handle := handle db; ConnMaxLifetime := d |}.

End sqlx.

Module time.
Definition Second : Z := 1000000000.
End time.

(** An alert raised with [ClusterGroup.SetState]: its code and the node. *)
Record StateEvent : Type := mkStateEvent {
  ErrKey : string;
  ServerUrl : string
}.

Definition withTLSConfigUsed (server : ServerMonitor) (tls : TLSConfig) : ServerMonitor :=
  {| URL := URL server; Name := Name server; State := State server;
     ServerID := ServerID server;
     ReplicationSourceName := ReplicationSourceName server;
     Replications := Replications server;
     InCaptureMode := InCaptureMode server;
     TLSConfigUsed := tls; DSN := DSN server;
     cookie_prov := cookie_prov server;
     cookie_restart := cookie_restart server;
     cookie_reprov := cookie_reprov server |}.

Definition withDSN (server : ServerMonitor) (dsn : string) : ServerMonitor :=
  {| URL := URL server; Name := Name server; State := State server;
     ServerID := ServerID server;
     ReplicationSourceName := ReplicationSourceName server;
     Replications := Replications server;
     InCaptureMode := InCaptureMode server;
     TLSConfigUsed := TLSConfigUsed server; DSN := dsn;
     cookie_prov := cookie_prov server;
     cookie_restart := cookie_restart server;
     cookie_reprov := cookie_reprov server |}.

Section Connection.

(** [sqlx.Connect driver dsn] opens and pings: [inl db] is [db, nil],
    [inr e] is [nil, e].  The answer of the network is a parameter. *)
Variable Connect : string -> string -> sqlx.DB + error.

(** [server.SetDSN()] is defined outside the files at hand: it rebuilds
    [server.DSN] from the node's fields, among them [TLSConfigUsed].  The
    string it builds is a parameter. *)
Variable buildDSN : ServerMonitor -> string.

Definition SetDSN (server : ServerMonitor) : ServerMonitor :=
  withDSN server (buildDSN server).

(** The result of the call: the returned pair, the node after the call and
    the alerts raised. *)
Definition GetNewDBConn (ClusterGroup : Cluster) (server : ServerMonitor)
  : (sqlx.DB + error) * ServerMonitor * list StateEvent :=
  if config.MasterSlavePgStream (Conf ClusterGroup)
     || config.MasterSlavePgLogical (Conf ClusterGroup)
  then (Connect "postgres" (DSN server), server, [])
  else
    match Connect "mysql" (DSN server) with
    | inl conn => (inl conn, server, [])
    | inr err =>
        if HaveDBTLSCert ClusterGroup then
          (* try the old key *)
          let server := withTLSConfigUsed server ConstTLSOldConfig in
          let server := SetDSN server in
          match Connect "mysql" (DSN server) with
          | inl conn =>
              let events := [ {| ErrKey := "ERR00080"; ServerUrl := URL server |} ] in
              (* reset DSN in case the server is restarted *)
              let server := withTLSConfigUsed server ConstTLSCurrentConfig in
              let conn := sqlx.SetConnMaxLifetime conn (3595 * time.Second) in
              let server := SetDSN server in
              (inl conn, server, events)
          | inr err =>
              let server := withTLSConfigUsed server ConstTLSNoConfig in
              let server := SetDSN server in
              let r := Connect "mysql" (DSN server) in
              let server := withTLSConfigUsed server ConstTLSCurrentConfig in
              let server := SetDSN server in
              (r, server, [])
          end
        else (inr err, server, [])
    end.

End Connection.

(** ** Sample clusters

    Concrete nodes and clusters on which the properties below are
    evaluated. *)
Module Sample.

Definition channel (name : string) (master : N) (delay : sql.NullInt64)
  : dbhelper.SlaveStatus :=
  {| dbhelper.ConnectionName := sql.mkNullString name true;
     dbhelper.MasterHost := sql.mkNullString "db0" true;
     dbhelper.MasterPort := sql.mkNullString "3306" true;
     dbhelper.MasterServerID := master;
     dbhelper.SecondsBehindMaster := delay;
     dbhelper.UsingGtid := sql.mkNullString "Slave_Pos" true |}.

(** A running node with the given identity, channels and restart cookie. *)
Definition node (url name : string) (id : N)
    (replications : Slice.t dbhelper.SlaveStatus) (restart : bool) : ServerMonitor :=
  {| URL := url; Name := name; State := "Slave"; ServerID := id;
     ReplicationSourceName := "";
     Replications := replications;
     InCaptureMode := false;
     TLSConfigUsed := ConstTLSCurrentConfig;
     DSN := url ++ "&tls=tlsconfig";
     cookie_prov := false; cookie_restart := restart; cookie_reprov := false |}.

Definition conf (orchestrator hosts ignore : string) : config.Config :=
  {| config.ProvOrchestrator := orchestrator;
     config.Hosts := hosts;
     config.IgnoreSrv := ignore;
     config.BackupServers := "";
     config.IgnoreSrvRO := "";
     config.PrefMaster := "";
     config.MonitorCapture := true;
     config.MasterSlavePgStream := false;
     config.MasterSlavePgLogical := false |}.

Definition cluster (c : config.Config) (servers : Slice.t ServerMonitor)
    (proxies : Slice.t Proxy.t) : Cluster :=
  {| Conf := c; IsNotMonitoring := false; HaveDBTLSCert := true;
     Servers := servers; Proxies := proxies; Log := [] |}.

Definition measured (seconds : Z) : sql.NullInt64 := sql.mkNullInt64 seconds true.
Definition unmeasured : sql.NullInt64 := sql.mkNullInt64 0 false.

(** Three replicas of the server with identifier 7. *)
Definition replicaA : ServerMonitor :=
  node "db1:3306" "db1" 1 (Some [channel "" 7 (measured 12)]) true.
Definition replicaB : ServerMonitor :=
  node "db2:3306" "db2" 2 (Some [channel "" 7 unmeasured]) true.
Definition replicaC : ServerMonitor :=
  node "db3:3306" "db3" 3 (Some [channel "" 7 (measured 0)]) true.

(** A node that reports no replication channel, one whose name is empty,
    and one that reports a negative lag. *)
Definition standalone : ServerMonitor := node "db4:3306" "db4" 4 None false.
Definition unnamed : ServerMonitor := node "db5:3306" "" 5 None false.
Definition negativeLag : ServerMonitor :=
  node "db6:3306" "db6" 6 (Some [channel "" 7 (measured (-5))]) false.

(** A failed node: it reports no replication status. *)
Definition failedNode : ServerMonitor :=
  {| URL := "db9:3306"; Name := "db9"; State := stateFailed; ServerID := 9;
     ReplicationSourceName := "";
     Replications := None;
     InCaptureMode := false;
     TLSConfigUsed := ConstTLSCurrentConfig;
     DSN := "db9:3306&tls=tlsconfig";
     cookie_prov := true; cookie_restart := false; cookie_reprov := false |}.

Definition proxy (prov : bool) : Proxy.t :=
  {| Proxy.State := "ProxyRunning"; Proxy.cookie_prov := prov;
     Proxy.cookie_restart := false; Proxy.cookie_reprov := false |}.

Definition kube : config.Config := conf "kube" "db1,db2" "db3,db4".
Definition kubeNoHosts : config.Config := conf "kube" "" "".
Definition onPremise : config.Config := conf config.ConstOrchestratorOnPremise "" "".

(** Clusters: two and three replicas, no node at all with the slice
    allocated, and no node with the slice nil. *)
Definition pair : Cluster := cluster kube (Some [replicaA; replicaB]) (Some [proxy false]).
Definition trio : Cluster := cluster kube (Some [replicaB; replicaC; replicaA]) None.
Definition scenario : Cluster :=
  cluster kube (Some [replicaA; failedNode; replicaC]) None.
Definition emptyServers : Cluster := cluster kube (Some []) None.
Definition nilServers : Cluster := cluster kube None None.
Definition noHosts : Cluster := cluster kubeNoHosts (Some [replicaA]) None.
Definition bareMetal : Cluster := cluster onPremise (Some [standalone]) None.

(** Every node and proxy answers, or none does. *)
Definition allRunning : ServerMonitor -> bool := fun _ => true.
Definition noneRunning : ServerMonitor -> bool := fun _ => false.
Definition proxiesRunning : Proxy.t -> bool := fun _ => true.

(** A certificate rotation in progress: the server still accepts the old
    key only. *)
Definition dsnOf (server : ServerMonitor) : string :=
  URL server ++
  match TLSConfigUsed server with
  | ConstTLSCurrentConfig => "&tls=tlsconfig"
  | ConstTLSOldConfig => "&tls=tlsconfigold"
  | ConstTLSNoConfig => ""
  end.

Definition oldKeyOnly (driver dsn : string) : sqlx.DB + error :=
  if dsn =? "db1:3306&tls=tlsconfigold"
  then inl {| sqlx.handle := 1; sqlx.ConnMaxLifetime := 0 |}
  else inr "x509: certificate signed by unknown authority".

Definition metricsOk : list graphite.Metric :=
  [ graphite.mkMetric "mysql.db1.threads_running" "3";
    graphite.mkMetric "mysql.db1.pfs.file_io" "17" ].
Definition metricShort : graphite.Metric := graphite.mkMetric "mysql.db1" "3".
Definition metricPfsShort : graphite.Metric := graphite.mkMetric "mysql.db1.pfs" "3".

End Sample.

(** ** Further accessors and predicates

    The remaining functions of the two files that can be stated over the
    values above.  A field of [ServerMonitor] or [Cluster] that the records
    above do not carry is passed to the function that reads it, under the
    name the field has in the code. *)

(** *** Library functions *)

(** [strings.HasSuffix(s, suffix)]:
    [len(s) >= len(suffix) && s[len(s)-len(suffix):] == suffix]. *)
Definition HasSuffix (s suffix : string) : bool :=
  (String.length suffix <=? String.length s)%nat
  && (substring (String.length s - String.length suffix) (String.length suffix) s
      =? suffix).

(** [strings.Contains(s, substr)]: [substr] starts at some position of [s]. *)
Fixpoint Contains (s substr : string) : bool :=
  String.prefix substr s
  || match s with
     | EmptyString => false
     | String _ rest => Contains rest substr
     end.

Module strconv.

(** [strconv.ParseUint(s, 10, 64)] before the range check: the value of a
    non-empty string of decimal digits, [None] on a syntax error. *)
Definition parseDigits (s : string) : option N :=
  if s =? "" then None
  else match NilEmpty.uint_of_string s with
       | Some u => Some (N.of_uint u)
       | None => None
       end.

(** [strconv.ParseInt(s, 10, 64)]: an optional sign, then decimal digits;
    [None] stands for a non-nil error, on a syntax error or when the value
    does not fit in an [int64]. *)
Definition ParseInt (s : string) : option Z :=
  if s =? "" then None
  else
    let '(neg, digits) :=
      match s with
      | EmptyString => (false, s)
      | String c rest =>
          if Ascii.eqb c "+" then (false, rest)
          else if Ascii.eqb c "-" then (true, rest)
          else (false, s)
      end in
    match parseDigits digits with
    | None => None
    | Some un =>
        let cutoff := (2 ^ 63)%N in
        if negb neg && (cutoff <=? un)%N then None
        else if neg && (cutoff <? un)%N then None
        else Some (if neg then (- Z.of_N un)%Z else Z.of_N un)
    end.

(** [strconv.FormatInt(i, 10)]. *)
Definition FormatInt (i : Z) : string := NilZero.string_of_int (Z.to_int i).

End strconv.

(** Arithmetic on [int64] wraps around. *)
Definition wrap64 (z : Z) : Z := ((z + 2 ^ 63) mod 2 ^ 64 - 2 ^ 63)%Z.

(** *** The cluster *)

(** A host name that can be an entry of a comma-separated list. *)
Definition commaFree (host : string) : Prop :=
  strings.ContainsByte host comma = false.

(** [mymaster] is what [cluster.GetMaster()] returned, the real or the
    virtual master; [None] is nil. *)
Definition IsMasterFailed (mymaster : option ServerMonitor) : bool :=
  match mymaster with
  | None => true
  | Some master => if State master =? stateFailed then true else false
  end.

(** What a call of [IsProvisioned] may do to one node, and to one proxy:
    nothing, or set the provision cookie of one that lacked it and is
    running. *)
Definition serverStep (IsRunning : ServerMonitor -> bool)
    (db db' : ServerMonitor) : Prop :=
  db' = db
  \/ (HasProvisionCookie db = false /\ IsRunning db = true
      /\ db' = SetProvisionCookie db).

Definition proxyStep (ProxyIsRunning : Proxy.t -> bool) (px px' : Proxy.t) : Prop :=
  px' = px
  \/ (Proxy.HasProvisionCookie px = false /\ ProxyIsRunning px = true
      /\ px' = Proxy.SetProvisionCookie px).

(** *** Connections *)

(** The node as the retry of [GetNewDBConn] with the old key leaves it, and
    as its attempt without certificate leaves it. *)
Definition withOldKey (buildDSN : ServerMonitor -> string) (server : ServerMonitor)
  : ServerMonitor :=
  SetDSN buildDSN (withTLSConfigUsed server ConstTLSOldConfig).

Definition withoutCert (buildDSN : ServerMonitor -> string) (server : ServerMonitor)
  : ServerMonitor :=
  SetDSN buildDSN
    (withTLSConfigUsed (withOldKey buildDSN server) ConstTLSNoConfig).

(** *** Replication status *)

Definition withReplications (server : ServerMonitor)
    (replications : Slice.t dbhelper.SlaveStatus) : ServerMonitor :=
  {| URL := URL server; Name := Name server; State := State server;
     ServerID := ServerID server;
     ReplicationSourceName := ReplicationSourceName server;
     Replications := replications;
     InCaptureMode := InCaptureMode server;
     TLSConfigUsed := TLSConfigUsed server; DSN := DSN server;
     cookie_prov := cookie_prov server;
     cookie_restart := cookie_restart server;
     cookie_reprov := cookie_reprov server |}.

(** [LastSeenReplications] is [server.LastSeenReplications]. *)
Definition GetSlaveStatusLastSeen
    (LastSeenReplications : Slice.t dbhelper.SlaveStatus)
    (server : ServerMonitor) (name : string) : dbhelper.SlaveStatus + error :=
  if negb (Slice.is_nil LastSeenReplications) then
    match findChannel (Slice.range LastSeenReplications) name with
    | Some ss => inl ss
    | None => inr "Empty replications channels"
    end
  else GetSlaveStatus server name.

(** [IsMariaDB] is the answer of [server.IsMariaDB()] and [HaveMySQLGTID]
    is [server.HaveMySQLGTID]. *)
Definition GetReplicationUsingGtid (IsMariaDB HaveMySQLGTID : bool)
    (server : ServerMonitor) : string :=
  if IsMariaDB then
    match GetSlaveStatus server (ReplicationSourceName server) with
    | inr sserr => "No"
    | inl ss => sql.NullString_String (dbhelper.UsingGtid ss)
    end
  else if HaveMySQLGTID then "Yes" else "No".

(** *** Status counters *)

(** [dbhelper.Variable]: a name and its value. *)
Record StatusVariable : Type := mkStatusVariable {
  Variable_name : string;
  Value : string
}.

(** What the body of the loop of [GetStatusDelta] appends for the entry
    [k, v] of [server.Status]. *)
Definition statusDeltaOf (PrevStatus : gmap string string) (k v : string)
  : list StatusVariable :=
  match strconv.ParseInt v with
  | Some i1 =>
      match strconv.ParseInt (default "" (PrevStatus !! k)) with
      | Some i2 =>
          if negb (wrap64 (i2 - i1) =? 0)%Z then
            [ {| Variable_name := k;
                 Value := strconv.FormatInt (wrap64 (i1 - i2)) |} ]
          else []
      | None => []
      end
  | None => []
  end.

(** [Status] and [PrevStatus] are [server.Status] and [server.PrevStatus],
    maps from counter names to values.  Go visits a map in an unspecified
    order; the entries are visited here in the order of [map_to_list]. *)
Definition GetStatusDelta (Status PrevStatus : gmap string string)
  : list StatusVariable :=
  flat_map (fun kv => statusDeltaOf PrevStatus kv.1 kv.2) (map_to_list Status).

(** *** Dictionary tables and query digests *)

(** [DictTables] is [server.DictTables], and [emptyTable] the zero value of
    [dbhelper.Table]. *)
Definition GetTableFromDict {Table : Type} (emptyTable : Table)
    (DictTables : gmap string Table) (URI : string) : Table * option error :=
  match DictTables !! URI with
  | None =>
      if (size DictTables =? 0)%nat then (emptyTable, Some "Empty")
      else (emptyTable, Some "Not found")
  | Some val => (val, None)
  end.

Module PFSQuery.

(** [dbhelper.PFSQuery]; only the columns read here. *)
Record t : Type := mk {
  Digest : string;
  Schema_name : string;
  Query : string
}.

End PFSQuery.

Module SlowLog.

(** An entry of [server.SlowLog.Buffer]; only the fields read here. *)
Record Message : Type := mkMessage {
  Digest : string;
  Db : string;
  Query : string
}.

End SlowLog.

(** [PFSQueries] lists the values of [server.PFSQueries] in the order the
    loop visits them. *)
Fixpoint GetQueryFromPFSDigest (PFSQueries : list PFSQuery.t) (digest : string)
  : string * string * option error :=
  match PFSQueries with
  | [] => ("", "", Some "Query digest not found in PFS")
  | v :: rest =>
      if PFSQuery.Digest v =? digest
      then (PFSQuery.Schema_name v, PFSQuery.Query v, None)
      else GetQueryFromPFSDigest rest digest
  end.

(** [Buffer] is [server.SlowLog.Buffer]. *)
Fixpoint GetQueryFromSlowLogDigest (Buffer : list SlowLog.Message) (digest : string)
  : string * string * option error :=
  match Buffer with
  | [] => ("", "", Some "Query digest not found in PFS")
  | v :: rest =>
      if SlowLog.Digest v =? digest
      then (SlowLog.Db v, SlowLog.Query v, None)
      else GetQueryFromSlowLogDigest rest digest
  end.

Section Analyze.

(** [dbhelper.AnalyzeQuery] on the node's connection and version: what the
    database answers for a schema and a query. *)
Variable AnalyzeQuery : string -> string -> string * string * option error.

Definition GetQueryAnalyze (schema query : string) : string * string * option error :=
  AnalyzeQuery schema query.

Definition GetQueryAnalyzePFS (PFSQueries : list PFSQuery.t) (digest : string)
  : string * string * option error :=
  let '(schema, query, err) := GetQueryFromPFSDigest PFSQueries digest in
  match err with
  | Some e => ("", "", Some e)
  | None => GetQueryAnalyze schema query
  end.

Definition GetQueryAnalyzeSlowLog (Buffer : list SlowLog.Message) (digest : string)
  : string * string * option error :=
  let '(schema, query, err) := GetQueryFromSlowLogDigest Buffer digest in
  match err with
  | Some e => ("", "", Some e)
  | None => GetQueryAnalyze schema query
  end.

End Analyze.

(** *** Tags *)

(** [tags] is what [server.ClusterGroup.GetDatabaseTags()] returned and
    [IsCompute] is [server.IsCompute]. *)
Fixpoint IsFilterInTags (tags : list string) (IsCompute : bool) (filter : string)
  : bool :=
  match tags with
  | [] => false
  | tag :: rest =>
      if HasSuffix filter tag then true
      else if IsCompute && Contains filter "spider" then true
      else IsFilterInTags rest IsCompute filter
  end.

(** ** Further samples *)
Module Sample2.

(** Nothing answers, or only a connection without client certificate. *)
Definition unreachable (driver dsn : string) : sqlx.DB + error :=
  inr ("dial tcp: connection refused: " ++ dsn).

Definition noCertOnly (driver dsn : string) : sqlx.DB + error :=
  if dsn =? "db1:3306"
  then inl {| sqlx.handle := 2; sqlx.ConnMaxLifetime := 0 |}
  else inr "x509: certificate signed by unknown authority".

(** A cluster in which a node without replication, the node itself and a
    failed node are listed before the only other replica of the upstream. *)
Definition mixed : Cluster :=
  Sample.cluster Sample.kube
    (Some [Sample.standalone; Sample.replicaA; Sample.failedNode; Sample.replicaB])
    None.

Definition plainCluster : Cluster :=
  {| Conf := Sample.kube; IsNotMonitoring := false; HaveDBTLSCert := false;
     Servers := Some [Sample.replicaA]; Proxies := None; Log := [] |}.

Definition statusNow : gmap string string :=
  <["QUERIES" := "1500"]> (<["UPTIME" := "60"]> (<["VERSION" := "10.5"]> ∅)).
Definition statusBefore : gmap string string :=
  <["QUERIES" := "1200"]> (<["UPTIME" := "60"]> ∅).

Definition pfs : list PFSQuery.t :=
  [ PFSQuery.mk "d1" "shop" "SELECT 1"; PFSQuery.mk "d2" "crm" "SELECT 2" ].

Definition analyzer (schema query : string) : string * string * option error :=
  ("ANALYZE " ++ query, "", None).

End Sample2.

(** * Properties *)

(** ** strings.Split *)

Example Split_db3_db4 : strings.Split "db3,db4" comma = ["db3"; "db4"].
Proof. reflexivity. Qed.

Example Split_empty : strings.Split "" comma = [""].
Proof. reflexivity. Qed.

Example Split_trailing : strings.Split "a,,b," comma = ["a"; ""; "b"; ""].
Proof. reflexivity. Qed.

Section SplitFacts.

Variable sep : ascii.

Lemma Split_not_empty (s : string) : strings.Split s sep <> [].
Proof.
  destruct s as [|c rest]; simpl; [discriminate|].
  destruct (Ascii.eqb c sep); [discriminate|].
  destruct (strings.Split rest sep); discriminate.
Qed.

Lemma Split_length (s : string) :
  length (strings.Split s sep) = S (strings.Count s sep).
Proof.
  induction s as [|c rest IH]; simpl; [reflexivity|].
  destruct (Ascii.eqb c sep); simpl.
  - now rewrite IH.
  - destruct (strings.Split rest sep) as [|f fs] eqn:E; simpl in *; lia.
Qed.

Lemma Join_cons_cons (f g : string) (fs : list string) :
  strings.Join (f :: g :: fs) sep = f ++ String sep (strings.Join (g :: fs) sep).
Proof. reflexivity. Qed.

(** Joining the fields with the separator gives the string back. *)
Lemma Join_Split (s : string) : strings.Join (strings.Split s sep) sep = s.
Proof.
  induction s as [|c rest IH]; simpl; [reflexivity|].
  destruct (Ascii.eqb c sep) eqn:Ec.
  - apply Ascii.eqb_eq in Ec. subst c.
    pose proof (Split_not_empty rest) as Hne.
    destruct (strings.Split rest sep) as [|f fs]; [contradiction|].
    rewrite Join_cons_cons, IH. reflexivity.
  - pose proof (Split_not_empty rest) as Hne.
    destruct (strings.Split rest sep) as [|f fs]; [contradiction|].
    rewrite <- IH. destruct fs; reflexivity.
Qed.

(** No field contains the separator. *)
Lemma Split_fields_clean (s : string) :
  Forall (fun f => strings.ContainsByte f sep = false) (strings.Split s sep).
Proof.
  induction s as [|c rest IH]; simpl.
  - repeat constructor.
  - destruct (Ascii.eqb c sep) eqn:Ec.
    + constructor; [reflexivity|exact IH].
    + destruct (strings.Split rest sep) as [|f fs].
      * repeat constructor. simpl. now rewrite Ec.
      * inversion IH; subst. constructor; [|assumption].
        simpl. now rewrite Ec.
Qed.

(** Conversely, splitting the join of separator-free fields returns them:
    [Split] is the inverse of [Join] on non-empty lists of clean fields. *)
Lemma Split_app_clean (f s : string) :
  strings.ContainsByte f sep = false ->
  strings.Split (f ++ String sep s) sep = f :: strings.Split s sep.
Proof.
  induction f as [|c f IH]; simpl; intros Hc.
  - now rewrite Ascii.eqb_refl.
  - apply orb_false_iff in Hc as [Hc Hf]. rewrite Hc, (IH Hf). reflexivity.
Qed.

Lemma Split_clean (f : string) :
  strings.ContainsByte f sep = false -> strings.Split f sep = [f].
Proof.
  induction f as [|c f IH]; simpl; intros Hc; [reflexivity|].
  apply orb_false_iff in Hc as [Hc Hf]. rewrite Hc, (IH Hf). reflexivity.
Qed.

Lemma Split_Join (fields : list string) :
  fields <> [] ->
  Forall (fun f => strings.ContainsByte f sep = false) fields ->
  strings.Split (strings.Join fields sep) sep = fields.
Proof.
  induction fields as [|f fs IH]; intros Hne Hall; [contradiction|].
  inversion Hall as [|? ? Hf Hfs]; subst.
  destruct fs as [|g fs].
  - simpl. now apply Split_clean.
  - rewrite Join_cons_cons, Split_app_clean by assumption.
    f_equal. apply IH; [discriminate|assumption].
Qed.

End SplitFacts.

(** ** Aggregate predicates over the node set *)

Lemma existsb_false_Forall {A : Type} (p : A -> bool) (l : list A) :
  existsb p l = false <-> Forall (fun x => p x = false) l.
Proof.
  induction l as [|x l IH]; simpl.
  - split; [constructor|reflexivity].
  - rewrite orb_false_iff, IH. split.
    + intros [Hx Hl]. now constructor.
    + intros H. inversion H; subst. now split.
Qed.

Lemma existsb_lookup {A : Type} (p : A -> bool) (l : list A) (i : nat) (x : A) :
  l !! i = Some x -> p x = true -> existsb p l = true.
Proof.
  intros Hi Hx. apply existsb_exists. exists x. split; [|exact Hx].
  apply list_elem_of_In, list_elem_of_lookup. now exists i.
Qed.

(** A nil node set makes the guarded predicates false. *)
Lemma nil_servers_predicates (cluster : Cluster) :
  Servers cluster = Slice.nil ->
  HasAllDbUp cluster = false
  /\ HasRequestDBRestart cluster = false
  /\ HasRequestDBRollingRestart cluster = false
  /\ HasRequestDBRollingReprov cluster = false.
Proof.
  intros Hnil.
  unfold HasAllDbUp, HasRequestDBRestart, HasRequestDBRollingRestart,
    HasRequestDBRollingReprov.
  rewrite Hnil. repeat split.
Qed.

(** C2. For a cluster holding no node, HasAllDbUp,
    HasRequestDBRollingRestart and HasRequestDBRollingReprov return false
    when the [Servers] slice is nil and true when it is allocated but empty:
    the guard of the three predicates tests [Servers == nil], not the
    length, so the empty slice falls through to the vacuous [true]. *)
Theorem empty_node_set_predicates (cluster : Cluster) :
  Slice.range (Servers cluster) = [] ->
  HasAllDbUp cluster = negb (Slice.is_nil (Servers cluster))
  /\ HasRequestDBRollingRestart cluster = negb (Slice.is_nil (Servers cluster))
  /\ HasRequestDBRollingReprov cluster = negb (Slice.is_nil (Servers cluster)).
Proof.
  intros Hempty.
  unfold HasAllDbUp, HasRequestDBRollingRestart, HasRequestDBRollingReprov.
  rewrite Hempty.
  destruct (Slice.is_nil (Servers cluster)); repeat split.
Qed.

Lemma empty_node_set_vacuous_truth :
  Slice.range (Servers Sample.emptyServers) = []
  /\ HasAllDbUp Sample.emptyServers = true
  /\ HasRequestDBRollingRestart Sample.emptyServers = true
  /\ HasRequestDBRollingReprov Sample.emptyServers = true.
Proof.
  split; [reflexivity|].
  exact (empty_node_set_predicates Sample.emptyServers eq_refl).
Defined.

Lemma rolling_restart_all_cookies (cluster : Cluster) (servers : list ServerMonitor) :
  Servers cluster = Some servers ->
  (HasRequestDBRollingRestart cluster = true
   <-> Forall (fun s => HasRestartCookie s = true) servers).
Proof.
  intros Hs. unfold HasRequestDBRollingRestart. rewrite Hs. simpl.
  destruct (existsb _ servers) eqn:E.
  - split; [discriminate|]. intros Hall.
    apply existsb_exists in E as (s & Hin & Hs').
    rewrite List.Forall_forall in Hall. apply Hall in Hin.
    rewrite Hin in Hs'. discriminate.
  - split; [|reflexivity]. intros _.
    apply existsb_false_Forall in E.
    eapply List.Forall_impl; [|exact E].
    intros s Hneg. simpl in Hneg. now apply negb_false_iff in Hneg.
Qed.

(** C4. In a node set of at least two nodes that all carry the restart
    cookie, HasRequestDBRollingRestart is true; once the cookie of one
    node (any index [i]) is cleared it is false, while
    HasRequestDBRestart is still true. *)
Theorem rolling_restart_needs_every_node
    (cluster : Cluster) (servers : list ServerMonitor) (i : nat) :
  Servers cluster = Some servers ->
  2 <= length servers ->
  Forall (fun s => HasRestartCookie s = true) servers ->
  i < length servers ->
  let cluster' := withServers cluster (Some (alter DelRestartCookie i servers)) in
  HasRequestDBRollingRestart cluster = true
  /\ HasRequestDBRollingRestart cluster' = false
  /\ HasRequestDBRestart cluster' = true.
Proof.
  intros Hs Hlen Hall Hi cluster'.
  split; [now apply (rolling_restart_all_cookies cluster servers Hs)|].
  destruct (lookup_lt_is_Some_2 servers i Hi) as [x Hx].
  assert (Hcleared : alter DelRestartCookie i servers !! i = Some (DelRestartCookie x)).
  { rewrite list_lookup_alter_eq, Hx. reflexivity. }
  split.
  - unfold HasRequestDBRollingRestart, cluster'. simpl.
    now rewrite (existsb_lookup _ _ i _ Hcleared).
  - (* some other node keeps its cookie *)
    set (j := if decide (i = 0) then 1 else 0).
    assert (Hj : j < length servers /\ i <> j).
    { unfold j. destruct (decide (i = 0)); lia. }
    destruct Hj as [Hj Hij].
    destruct (lookup_lt_is_Some_2 servers j Hj) as [y Hy].
    assert (Hkept : alter DelRestartCookie i servers !! j = Some y).
    { now rewrite list_lookup_alter_ne. }
    unfold HasRequestDBRestart, cluster'. simpl.
    apply (existsb_lookup _ _ j y Hkept).
    rewrite List.Forall_forall in Hall. apply Hall.
    apply list_elem_of_In, list_elem_of_lookup. now exists j.
Qed.

Lemma rolling_restart_pair_witness :
  HasRequestDBRollingRestart Sample.pair = true
  /\ HasRequestDBRollingRestart
       (withServers Sample.pair
          (Some [DelRestartCookie Sample.replicaA; Sample.replicaB])) = false
  /\ HasRequestDBRestart
       (withServers Sample.pair
          (Some [DelRestartCookie Sample.replicaA; Sample.replicaB])) = true.
Proof.
  apply (rolling_restart_needs_every_node Sample.pair
           [Sample.replicaA; Sample.replicaB] 0).
  - reflexivity.
  - simpl. lia.
  - repeat constructor.
  - simpl. lia.
Defined.

(** C9. IsInCaptureMode returns false for every cluster: with at least one
    server the guard returns false, and with none the loop has nothing to
    visit. *)
Theorem IsInCaptureMode_always_false (cluster : Cluster) :
  IsInCaptureMode cluster = false.
Proof.
  unfold IsInCaptureMode, Slice.len.
  destruct (Slice.range (Servers cluster)) as [|server rest]; simpl.
  - now destruct (negb _ || _).
  - now rewrite orb_true_r.
Qed.

(** ** Host lists *)

Lemma inHostList_true (ihosts : list string) (server : ServerMonitor) :
  inHostList ihosts server = true
  <-> exists ihost, In ihost ihosts /\ (URL server = ihost \/ Name server = ihost).
Proof.
  unfold inHostList. rewrite existsb_exists.
  split; intros (ihost & Hin & H); exists ihost; (split; [exact Hin|]).
  - apply orb_true_iff in H as [H|H]; apply String.eqb_eq in H; auto.
  - apply orb_true_iff. destruct H as [H|H]; apply String.eqb_eq in H; auto.
Qed.

(** The scenario of the specification: ignore list ["db3,db4"]. *)
Example IsInIgnoredHosts_db3 :
  IsInIgnoredHosts (Sample.cluster Sample.kube None None)
    (Sample.node "db3" "db3" 3 None false) = true.
Proof. reflexivity. Qed.

Example IsInIgnoredHosts_db5 :
  IsInIgnoredHosts (Sample.cluster Sample.kube None None)
    (Sample.node "db5" "db5" 5 None false) = false.
Proof. reflexivity. Qed.

(** C8 (as stated, refuted). With an empty ignore list the predicate still
    returns true for a node whose name is empty: [strings.Split] of the
    empty string is the one entry [""]. *)
Lemma IsInIgnoredHosts_empty_list_matches :
  config.IgnoreSrv (Conf Sample.noHosts) = ""
  /\ IsInIgnoredHosts Sample.noHosts Sample.unnamed = true.
Proof. split; reflexivity. Qed.

(** C8 (amended). IsInIgnoredHosts returns true exactly when the node's URL
    or name equals one of the entries of [strings.Split] of the configured
    list on commas; when the configured list is the empty string its only
    entry is the empty string, so the predicate is true exactly for a node
    whose URL or name is empty and false for every other node. *)
Theorem IsInIgnoredHosts_membership (cluster : Cluster) (server : ServerMonitor) :
  (IsInIgnoredHosts cluster server = true
   <-> exists ihost,
         In ihost (strings.Split (config.IgnoreSrv (Conf cluster)) comma)
         /\ (URL server = ihost \/ Name server = ihost))
  /\ (config.IgnoreSrv (Conf cluster) = "" ->
      (IsInIgnoredHosts cluster server = true
       <-> URL server = "" \/ Name server = "")).
Proof.
  split; [apply inHostList_true|].
  intros Hempty. unfold IsInIgnoredHosts. rewrite Hempty. cbv zeta.
  rewrite inHostList_true. change (strings.Split "" comma) with [""]. split.
  - intros (ihost & [<-|[]] & H). exact H.
  - intros H. exists "". split; [now left|exact H].
Qed.

Lemma IsInIgnoredHosts_empty_list_witness :
  config.IgnoreSrv (Conf Sample.noHosts) = ""
  /\ (IsInIgnoredHosts Sample.noHosts Sample.replicaA = true
      <-> URL Sample.replicaA = "" \/ Name Sample.replicaA = "").
Proof.
  split; [reflexivity|].
  exact (proj2 (IsInIgnoredHosts_membership Sample.noHosts Sample.replicaA) eq_refl).
Defined.

(** ** IsProvisioned *)

Section ProvisioningFacts.

Variable IsRunning : ServerMonitor -> bool.
Variable ProxyIsRunning : Proxy.t -> bool.

Lemma provisionServers_ok (dbs : list ServerMonitor) :
  (provisionServers IsRunning dbs).1.1 = true <-> Forall (serverPasses IsRunning) dbs.
Proof.
  induction dbs as [|db rest IH]; simpl.
  - split; [constructor|reflexivity].
  - destruct (provisionServers IsRunning rest) as [[ok rest'] lines].
    unfold serverPasses at 1. simpl in IH.
    destruct (HasProvisionCookie db) eqn:Hc; simpl.
    + rewrite IH. split; [intros H; constructor; auto|].
      intros H. now inversion H.
    + destruct (IsRunning db) eqn:Hr; simpl.
      * rewrite IH. split; [intros H; constructor; auto|].
        intros H. now inversion H.
      * split; [discriminate|]. intros H. inversion H as [|? ? [Hd|Hd] _]; subst.
        -- rewrite Hc in Hd. discriminate.
        -- rewrite Hr in Hd. discriminate.
Qed.

Lemma provisionServers_cookies (dbs : list ServerMonitor) :
  (provisionServers IsRunning dbs).1.1 = true ->
  Forall (fun db => HasProvisionCookie db = true) (provisionServers IsRunning dbs).1.2.
Proof.
  induction dbs as [|db rest IH]; simpl; [constructor|].
  destruct (provisionServers IsRunning rest) as [[ok rest'] lines].
  simpl in IH.
  destruct (HasProvisionCookie db) eqn:Hc; simpl.
  - intros Hok. constructor; auto.
  - destruct (IsRunning db); simpl; [|discriminate].
    intros Hok. constructor; auto.
Qed.

Lemma provisionProxies_ok (pxs : list Proxy.t) :
  (provisionProxies ProxyIsRunning pxs).1.1 = true <-> Forall (proxyPasses ProxyIsRunning) pxs.
Proof.
  induction pxs as [|px rest IH]; simpl.
  - split; [constructor|reflexivity].
  - destruct (provisionProxies ProxyIsRunning rest) as [[ok rest'] lines].
    unfold proxyPasses at 1. simpl in IH.
    destruct (Proxy.HasProvisionCookie px) eqn:Hc; simpl.
    + rewrite IH. split; [intros H; constructor; auto|].
      intros H. now inversion H.
    + destruct (ProxyIsRunning px) eqn:Hr; simpl.
      * rewrite IH. split; [intros H; constructor; auto|].
        intros H. now inversion H.
      * split; [discriminate|]. intros H. inversion H as [|? ? [Hd|Hd] _]; subst.
        -- rewrite Hc in Hd. discriminate.
        -- rewrite Hr in Hd. discriminate.
Qed.

Lemma provisionProxies_cookies (pxs : list Proxy.t) :
  (provisionProxies ProxyIsRunning pxs).1.1 = true ->
  Forall (fun px => Proxy.HasProvisionCookie px = true)
         (provisionProxies ProxyIsRunning pxs).1.2.
Proof.
  induction pxs as [|px rest IH]; simpl; [constructor|].
  destruct (provisionProxies ProxyIsRunning rest) as [[ok rest'] lines].
  simpl in IH.
  destruct (Proxy.HasProvisionCookie px) eqn:Hc; simpl.
  - intros Hok. constructor; auto.
  - destruct (ProxyIsRunning px); simpl; [|discriminate].
    intros Hok. constructor; auto.
Qed.

Lemma range_stored {A : Type} (s : Slice.t A) (elems : list A) :
  Slice.range (stored s elems) = match s with None => [] | Some _ => elems end.
Proof. now destruct s. Qed.

Lemma range_stored_servers (s : Slice.t ServerMonitor) :
  Slice.range (stored s (provisionServers IsRunning (Slice.range s)).1.2)
  = (provisionServers IsRunning (Slice.range s)).1.2.
Proof. now destruct s. Qed.

Lemma range_stored_proxies (s : Slice.t Proxy.t) :
  Slice.range (stored s (provisionProxies ProxyIsRunning (Slice.range s)).1.2)
  = (provisionProxies ProxyIsRunning (Slice.range s)).1.2.
Proof. now destruct s. Qed.

(** C1 (amended). IsProvisioned returns true at once, touching nothing,
    when the provisioning backend is on-premise; otherwise it returns false
    at once, touching nothing, when the configured hosts list is the empty
    string; otherwise it returns true exactly when every node and every
    proxy has its provision cookie or is running, and after a true result
    every node and every proxy carries the provision cookie. *)
Theorem IsProvisioned_cases (cluster : Cluster) :
  let onPremise :=
    config.ProvOrchestrator (Conf cluster) = config.ConstOrchestratorOnPremise in
  let result := IsProvisioned IsRunning ProxyIsRunning cluster in
  (onPremise -> result = (true, cluster))
  /\ (~ onPremise -> config.Hosts (Conf cluster) = "" -> result = (false, cluster))
  /\ (~ onPremise -> config.Hosts (Conf cluster) <> "" ->
      (result.1 = true
       <-> Forall (serverPasses IsRunning) (Slice.range (Servers cluster))
           /\ Forall (proxyPasses ProxyIsRunning) (Slice.range (Proxies cluster)))
      /\ (result.1 = true ->
          Forall (fun db => HasProvisionCookie db = true)
                 (Slice.range (Servers result.2))
          /\ Forall (fun px => Proxy.HasProvisionCookie px = true)
                    (Slice.range (Proxies result.2)))).
Proof.
  intros onPremise result. subst onPremise result. unfold IsProvisioned.
  split; [|split].
  - intros Hon. apply String.eqb_eq in Hon. now rewrite Hon.
  - intros Hoff Hhosts. apply String.eqb_neq in Hoff. rewrite Hoff.
    apply String.eqb_eq in Hhosts. now rewrite Hhosts.
  - intros Hoff Hhosts. apply String.eqb_neq in Hoff, Hhosts.
    rewrite Hoff, Hhosts.
    pose proof (provisionServers_ok (Slice.range (Servers cluster))) as Hdb.
    pose proof (provisionServers_cookies (Slice.range (Servers cluster))) as Hdbc.
    pose proof (range_stored_servers (Servers cluster)) as Hrs.
    destruct (provisionServers IsRunning (Slice.range (Servers cluster)))
      as [[ok dbs] lines]. simpl in Hdb, Hdbc, Hrs.
    destruct ok; simpl.
    + pose proof (provisionProxies_ok (Slice.range (Proxies cluster))) as Hpx.
      pose proof (provisionProxies_cookies (Slice.range (Proxies cluster))) as Hpxc.
      pose proof (range_stored_proxies (Proxies cluster)) as Hrp.
      destruct (provisionProxies ProxyIsRunning (Slice.range (Proxies cluster)))
        as [[ok pxs] lines']. simpl in Hpx, Hpxc, Hrp. simpl.
      rewrite Hrs, Hrp. split.
      * rewrite Hpx. split; [intros H; split; [now apply Hdb|exact H]|now intros [_ H]].
      * intros Hok. split; [now apply Hdbc|now apply Hpxc].
    + split; [|discriminate].
      split; [discriminate|]. intros [H _]. apply Hdb in H. discriminate.
Qed.

End ProvisioningFacts.

(** C1 (as stated, refuted). With another backend than on-premise and an
    empty hosts list IsProvisioned returns false, although every node is
    running. *)
Lemma IsProvisioned_empty_hosts_false :
  config.Hosts (Conf Sample.noHosts) = ""
  /\ (IsProvisioned Sample.allRunning Sample.proxiesRunning Sample.noHosts).1 = false.
Proof. split; reflexivity. Qed.

Lemma IsProvisioned_cases_witness :
  IsProvisioned Sample.noneRunning Sample.proxiesRunning Sample.bareMetal
    = (true, Sample.bareMetal)
  /\ IsProvisioned Sample.allRunning Sample.proxiesRunning Sample.noHosts
    = (false, Sample.noHosts)
  /\ (IsProvisioned Sample.allRunning Sample.proxiesRunning Sample.pair).1 = true.
Proof.
  split; [|split].
  - apply (IsProvisioned_cases Sample.noneRunning Sample.proxiesRunning Sample.bareMetal).
    reflexivity.
  - apply (IsProvisioned_cases Sample.allRunning Sample.proxiesRunning Sample.noHosts).
    + discriminate.
    + reflexivity.
  - apply (IsProvisioned_cases Sample.allRunning Sample.proxiesRunning Sample.pair).
    + discriminate.
    + discriminate.
    + split; repeat constructor; now right.
Defined.

(** ** Replication status *)

Lemma findChannel_Some (records : list dbhelper.SlaveStatus) (name : string)
    (ss : dbhelper.SlaveStatus) :
  findChannel records name = Some ss -> In ss records /\ channelName ss = name.
Proof.
  induction records as [|r rest IH]; simpl; [discriminate|].
  destruct (_ =? name) eqn:E.
  - intros [= <-]. apply String.eqb_eq in E. auto.
  - intros H. destruct (IH H). auto.
Qed.

Lemma findChannel_None (records : list dbhelper.SlaveStatus) (name : string) :
  findChannel records name = None
  <-> forall ss, In ss records -> channelName ss <> name.
Proof.
  induction records as [|r rest IH]; simpl.
  - split; [intros _ ss []|reflexivity].
  - destruct (_ =? name) eqn:E.
    + apply String.eqb_eq in E. split; [discriminate|].
      intros H. exfalso. apply (H r); auto.
    + apply String.eqb_neq in E. rewrite IH. split.
      * intros H ss [<-|Hin]; auto.
      * intros H ss Hin. apply H. auto.
Qed.

Lemma GetSlaveStatus_findChannel (server : ServerMonitor) (name : string) :
  GetSlaveStatus server name
  = match findChannel (Slice.range (Replications server)) name with
    | Some ss => inl ss
    | None => inr "Empty replications channels"
    end.
Proof.
  unfold GetSlaveStatus. now destruct (Replications server).
Qed.

Lemma GetSlaveStatus_inl (server : ServerMonitor) (name : string)
    (ss : dbhelper.SlaveStatus) :
  GetSlaveStatus server name = inl ss ->
  In ss (Slice.range (Replications server)) /\ channelName ss = name.
Proof.
  rewrite GetSlaveStatus_findChannel.
  destruct (findChannel _ name) as [found|] eqn:E; [|discriminate].
  intros [= <-]. now apply findChannel_Some.
Qed.

(** C7. GetSlaveStatus returns a record of the node whose channel name is
    the given name when there is one, and the error "Empty replications
    channels", never a record, when the node has no record or none of that
    name. *)
Theorem GetSlaveStatus_lookup (server : ServerMonitor) (name : string) :
  let records := Slice.range (Replications server) in
  ((exists ss, In ss records /\ channelName ss = name) ->
   exists ss, GetSlaveStatus server name = inl ss
              /\ In ss records /\ channelName ss = name)
  /\ ((forall ss, In ss records -> channelName ss <> name) ->
      GetSlaveStatus server name = inr "Empty replications channels")
  /\ (records = [] ->
      GetSlaveStatus server name = inr "Empty replications channels").
Proof.
  intros records. subst records. rewrite GetSlaveStatus_findChannel.
  destruct (findChannel _ name) as [found|] eqn:E.
  - destruct (findChannel_Some _ _ _ E) as [Hin Hname].
    split; [|split].
    + intros _. exists found. auto.
    + intros Hnone. exfalso. exact (Hnone found Hin Hname).
    + intros Hempty. rewrite Hempty in Hin. destruct Hin.
  - split; [|split]; auto.
    intros (ss & Hin & Hname). exfalso.
    exact (proj1 (findChannel_None _ _) E ss Hin Hname).
Qed.

Lemma GetSlaveStatus_lookup_witness :
  (exists ss, GetSlaveStatus Sample.replicaA "" = inl ss
              /\ In ss (Slice.range (Replications Sample.replicaA))
              /\ channelName ss = "")
  /\ GetSlaveStatus Sample.replicaA "ch2" = inr "Empty replications channels"
  /\ GetSlaveStatus Sample.standalone "" = inr "Empty replications channels".
Proof.
  split; [|split].
  - apply (proj1 (GetSlaveStatus_lookup Sample.replicaA "")).
    eexists. split; [left; reflexivity|reflexivity].
  - apply (proj1 (proj2 (GetSlaveStatus_lookup Sample.replicaA "ch2"))).
    intros ss [<-|[]]. discriminate.
  - apply (proj2 (proj2 (GetSlaveStatus_lookup Sample.standalone ""))).
    reflexivity.
Defined.

(** C6 (as stated, refuted). A node whose channel reports a negative
    seconds-behind value gets that negative value back. *)
Lemma GetReplicationDelay_negative :
  GetReplicationDelay Sample.negativeLag = (-5)%Z
  /\ (GetReplicationDelay Sample.negativeLag < 0)%Z.
Proof. split; reflexivity. Qed.

(** C6 (amended). GetReplicationDelay returns 0 when the channel lookup
    fails or the measurement is absent, and the reported value itself, not
    clamped, when a measurement is present; so it is not negative as long
    as no present measurement of the node is negative. *)
Theorem GetReplicationDelay_cases (server : ServerMonitor) :
  let status := GetSlaveStatus server (ReplicationSourceName server) in
  (forall e, status = inr e -> GetReplicationDelay server = 0%Z)
  /\ (forall ss, status = inl ss ->
        sql.Valid (dbhelper.SecondsBehindMaster ss) = false ->
        GetReplicationDelay server = 0%Z)
  /\ (forall ss, status = inl ss ->
        sql.Valid (dbhelper.SecondsBehindMaster ss) = true ->
        GetReplicationDelay server = sql.Int64 (dbhelper.SecondsBehindMaster ss))
  /\ ((forall ss, In ss (Slice.range (Replications server)) ->
         sql.Valid (dbhelper.SecondsBehindMaster ss) = true ->
         (0 <= sql.Int64 (dbhelper.SecondsBehindMaster ss))%Z) ->
      (0 <= GetReplicationDelay server)%Z).
Proof.
  intros status. subst status. unfold GetReplicationDelay.
  destruct (GetSlaveStatus server (ReplicationSourceName server)) as [ss|e] eqn:E.
  - apply GetSlaveStatus_inl in E as [Hin _].
    destruct (sql.Valid (dbhelper.SecondsBehindMaster ss)) eqn:Hv; simpl.
    + split; [|split; [|split]].
      * discriminate.
      * intros ss' [= <-]. congruence.
      * now intros ss' [= <-].
      * intros Hpos. now apply Hpos.
    + split; [|split; [|split]].
      * discriminate.
      * reflexivity.
      * intros ss' [= <-]. congruence.
      * intros _. lia.
  - split; [|split; [|split]]; intros; try discriminate; try reflexivity; lia.
Qed.

Lemma GetReplicationDelay_cases_witness :
  GetReplicationDelay Sample.standalone = 0%Z
  /\ GetReplicationDelay Sample.replicaB = 0%Z
  /\ GetReplicationDelay Sample.replicaA = 12%Z
  /\ (0 <= GetReplicationDelay Sample.replicaA)%Z.
Proof.
  split; [|split; [|split]].
  - exact (proj1 (GetReplicationDelay_cases Sample.standalone)
             "Empty replications channels" eq_refl).
  - exact (proj1 (proj2 (GetReplicationDelay_cases Sample.replicaB))
             (Sample.channel "" 7 Sample.unmeasured) eq_refl eq_refl).
  - exact (proj1 (proj2 (proj2 (GetReplicationDelay_cases Sample.replicaA)))
             (Sample.channel "" 7 (Sample.measured 12)) eq_refl eq_refl).
  - apply (proj2 (proj2 (proj2 (GetReplicationDelay_cases Sample.replicaA)))).
    intros ss [<-|[]] _. simpl. lia.
Defined.

(** ** Siblings *)

Lemma findSibling_Some (server : ServerMonitor) (ssserver : dbhelper.SlaveStatus)
    (servers : list ServerMonitor) (sl : ServerMonitor) :
  findSibling server ssserver servers = Some sl ->
  In sl servers
  /\ reportsUpstream sl (dbhelper.MasterServerID ssserver)
  /\ ServerID sl <> ServerID server.
Proof.
  induction servers as [|x rest IH]; simpl; [discriminate|].
  destruct (GetSlaveStatus x (ReplicationSourceName x)) as [sssib|err] eqn:E.
  - destruct (_ && _) eqn:Hmatch.
    + intros [= <-]. apply andb_true_iff in Hmatch as [Hm Hid].
      apply N.eqb_eq in Hm. apply negb_true_iff, N.eqb_neq in Hid.
      split; [now left|]. split; [|exact Hid]. now exists sssib.
    + intros H. destruct (IH H) as (Hin & Hup & Hid). auto.
  - intros H. destruct (IH H) as (Hin & Hup & Hid). auto.
Qed.

(** When [other] is in the list, reports the upstream of [ssserver] and has
    another [ServerID] than [server], and apart from [server] itself no
    further node reports that upstream, the scan returns [other]. *)
Lemma findSibling_only (server other : ServerMonitor)
    (ssserver : dbhelper.SlaveStatus) (servers : list ServerMonitor) :
  In other servers ->
  reportsUpstream other (dbhelper.MasterServerID ssserver) ->
  ServerID other <> ServerID server ->
  (forall x, In x servers ->
     reportsUpstream x (dbhelper.MasterServerID ssserver) ->
     x = other \/ x = server) ->
  findSibling server ssserver servers = Some other.
Proof.
  intros Hin (ssother & Hstatus & Hup) Hid.
  induction servers as [|x rest IH]; intros Honly; [destruct Hin|].
  assert (Hrest : x <> other -> findSibling server ssserver rest = Some other).
  { intros Hne. apply IH.
    - destruct Hin as [Heq|Hin]; [contradiction|exact Hin].
    - intros y Hy. apply Honly. now right. }
  simpl.
  destruct (GetSlaveStatus x (ReplicationSourceName x)) as [sssib|err] eqn:E.
  - destruct (N.eqb_spec (dbhelper.MasterServerID sssib)
                         (dbhelper.MasterServerID ssserver)) as [Hm|Hm]; simpl.
    + destruct (Honly x (or_introl eq_refl)) as [->| ->].
      * now exists sssib.
      * apply N.eqb_neq in Hid. now rewrite Hid.
      * rewrite N.eqb_refl. simpl. apply Hrest.
        intros <-. now apply Hid.
    + apply Hrest. intros ->. rewrite Hstatus in E. injection E as <-.
      now apply Hm.
  - apply Hrest. intros ->. rewrite Hstatus in E. discriminate.
Qed.

(** The scenario of the specification: A and C replicate from the server
    7 and B is failed. *)
Example scenario_HasAllDbUp : HasAllDbUp Sample.scenario = false.
Proof. reflexivity. Qed.

Example scenario_GetSibling :
  GetSibling Sample.scenario Sample.replicaA = Some Sample.replicaC.
Proof. reflexivity. Qed.

(** C5 (as stated, refuted). With three replicas of the same upstream,
    listed as B, C, A, the sibling of A is B but the sibling of B is C. *)
Lemma GetSibling_not_symmetric :
  In Sample.replicaA (Slice.range (Servers Sample.trio))
  /\ In Sample.replicaB (Slice.range (Servers Sample.trio))
  /\ Sample.replicaA <> Sample.replicaB
  /\ GetReplicationServerID Sample.replicaA = GetReplicationServerID Sample.replicaB
  /\ GetSibling Sample.trio Sample.replicaA = Some Sample.replicaB
  /\ GetSibling Sample.trio Sample.replicaB <> Some Sample.replicaA.
Proof.
  repeat split; try reflexivity.
  - simpl. auto.
  - simpl. auto.
  - discriminate.
  - discriminate.
Qed.

Lemma findSibling_None (server : ServerMonitor) (ssserver : dbhelper.SlaveStatus)
    (servers : list ServerMonitor) :
  findSibling server ssserver servers = None
  <-> forall sl, In sl servers ->
        ~ (reportsUpstream sl (dbhelper.MasterServerID ssserver)
           /\ ServerID sl <> ServerID server).
Proof.
  induction servers as [|x rest IH]; simpl.
  - split; [intros _ sl []|reflexivity].
  - destruct (GetSlaveStatus x (ReplicationSourceName x)) as [sssib|err] eqn:E.
    + destruct (N.eqb_spec (dbhelper.MasterServerID sssib)
                           (dbhelper.MasterServerID ssserver)) as [Hm|Hm]; simpl.
      * destruct (N.eqb_spec (ServerID x) (ServerID server)) as [Hid|Hid]; simpl.
        -- rewrite IH. split.
           ++ intros H sl [<-|Hin]; [intros [_ Hne]; now apply Hne|now apply H].
           ++ intros H sl Hin. apply H. now right.
        -- split; [discriminate|]. intros H. exfalso.
           apply (H x (or_introl eq_refl)). split; [now exists sssib|exact Hid].
      * rewrite IH. split.
        -- intros H sl [<-|Hin]; [|now apply H].
           intros [(ss & Hss & Hup) _]. rewrite E in Hss. injection Hss as <-.
           now apply Hm.
        -- intros H sl Hin. apply H. now right.
    + rewrite IH. split.
      * intros H sl [<-|Hin]; [|now apply H].
        intros [(ss & Hss & _) _]. rewrite E in Hss. discriminate.
      * intros H sl Hin. apply H. now right.
Qed.

Lemma findSibling_first (server : ServerMonitor) (ssserver : dbhelper.SlaveStatus)
    (servers : list ServerMonitor) (sibling : ServerMonitor) :
  findSibling server ssserver servers = Some sibling ->
  exists before after,
    servers = (before ++ sibling :: after)%list
    /\ findSibling server ssserver before = None.
Proof.
  induction servers as [|x rest IH]; simpl; [discriminate|].
  destruct (GetSlaveStatus x (ReplicationSourceName x)) as [sssib|err] eqn:E.
  - destruct (_ && _) eqn:Hmatch.
    + intros [= <-]. now exists [], rest.
    + intros H. destruct (IH H) as (before & after & -> & Hnone).
      exists (x :: before), after. split; [reflexivity|].
      simpl. now rewrite E, Hmatch.
  - intros H. destruct (IH H) as (before & after & -> & Hnone).
    exists (x :: before), after. split; [reflexivity|].
    simpl. now rewrite E.
Qed.

Lemma GetSibling_status (cluster : Cluster) (server : ServerMonitor)
    (ss : dbhelper.SlaveStatus) :
  GetSlaveStatus server (ReplicationSourceName server) = inl ss ->
  GetSibling cluster server = findSibling server ss (Slice.range (Servers cluster))
  /\ GetReplicationServerID server = dbhelper.MasterServerID ss.
Proof.
  intros H. unfold GetSibling, GetReplicationServerID. now rewrite H.
Qed.

Lemma findSibling_app (server : ServerMonitor) (ssserver : dbhelper.SlaveStatus)
    (before rest : list ServerMonitor) :
  findSibling server ssserver (before ++ rest)%list
  = match findSibling server ssserver before with
    | Some sl => Some sl
    | None => findSibling server ssserver rest
    end.
Proof.
  induction before as [|x before IH]; simpl; [reflexivity|].
  destruct (GetSlaveStatus x (ReplicationSourceName x)) as [sssib|err];
    [|exact IH].
  now destruct (_ && _).
Qed.

(** The scan stops at a node that qualifies. *)
Lemma findSibling_head (server sibling : ServerMonitor)
    (ssserver : dbhelper.SlaveStatus) (rest : list ServerMonitor) :
  reportsUpstream sibling (dbhelper.MasterServerID ssserver) ->
  ServerID sibling <> ServerID server ->
  findSibling server ssserver (sibling :: rest) = Some sibling.
Proof.
  intros (ss & Hss & Hup) Hid. simpl. rewrite Hss, Hup, N.eqb_refl.
  apply N.eqb_neq in Hid. now rewrite Hid.
Qed.

(** What GetSibling returns, exactly: the first node in list order that
    qualifies as a sibling. *)
Lemma GetSibling_Some_iff (cluster : Cluster) (server sibling : ServerMonitor) :
  GetSibling cluster server = Some sibling <-> firstSibling cluster server sibling.
Proof.
  unfold firstSibling, siblingOf.
  destruct (GetSlaveStatus server (ReplicationSourceName server)) as [ss|err] eqn:E.
  - destruct (GetSibling_status cluster server ss E) as [-> ->]. split.
    + intros H.
      destruct (findSibling_Some _ _ _ _ H) as (_ & Hup & Hid).
      destruct (findSibling_first _ _ _ _ H) as (before & after & Heq & Hnone).
      split; [now exists ss|].
      exists before, after. repeat split; try assumption.
      now apply findSibling_None.
    + intros (_ & before & after & -> & [Hup Hid] & Hbefore).
      rewrite findSibling_app, (proj2 (findSibling_None _ _ _) Hbefore).
      now apply findSibling_head.
  - unfold GetSibling. rewrite E. split; [discriminate|].
    intros ([ss Hss] & _). discriminate.
Qed.

(** C5 (amended). GetSibling returns the first node of the cluster, in
    list order, that reports the same upstream identifier under another
    ServerID: it returns B for A exactly when A has a status record, B
    qualifies and no node listed before B does.  If GetSibling(A) resolves
    to B for a node A of the cluster, and A and B are the only nodes of the
    cluster that report this upstream identifier, then GetSibling(B)
    resolves to A. *)
Theorem GetSibling_symmetric_for_two (cluster : Cluster) (A B : ServerMonitor) :
  (GetSibling cluster A = Some B <-> firstSibling cluster A B)
  /\ (In A (Slice.range (Servers cluster)) ->
      GetSibling cluster A = Some B ->
      (forall x, In x (Slice.range (Servers cluster)) ->
         reportsUpstream x (GetReplicationServerID A) ->
         x = A \/ x = B) ->
      GetSibling cluster B = Some A).
Proof.
  split; [apply GetSibling_Some_iff|].
  unfold GetSibling, GetReplicationServerID.
  intros HinA HAB Honly.
  destruct (GetSlaveStatus A (ReplicationSourceName A)) as [ssA|err] eqn:EA;
    [|discriminate].
  apply findSibling_Some in HAB as (HinB & (ssB & EB & Hup) & Hid).
  rewrite EB.
  apply findSibling_only.
  - exact HinA.
  - exists ssA. split; [exact EA|now symmetry].
  - now apply not_eq_sym.
  - rewrite Hup. exact Honly.
Qed.

(** In [Sample2.mixed] three nodes that do not qualify, among them A
    itself, are listed before B: the first part gives B as the sibling of
    A, the second part A as the sibling of B. *)
Lemma GetSibling_symmetric_pair_witness :
  GetSibling Sample2.mixed Sample.replicaA = Some Sample.replicaB
  /\ GetSibling Sample2.mixed Sample.replicaB = Some Sample.replicaA.
Proof.
  assert (HAB : GetSibling Sample2.mixed Sample.replicaA = Some Sample.replicaB).
  { apply (proj1 (GetSibling_symmetric_for_two Sample2.mixed
                    Sample.replicaA Sample.replicaB)).
    split; [eexists; reflexivity|].
    exists [Sample.standalone; Sample.replicaA; Sample.failedNode], [].
    split; [reflexivity|]. split.
    - split; [eexists; split; reflexivity|discriminate].
    - intros sl [<-|[<-|[<-|[]]]] [[ss [Hss _]] Hid];
        try discriminate. now apply Hid. }
  split; [exact HAB|].
  apply (proj2 (GetSibling_symmetric_for_two Sample2.mixed
                  Sample.replicaA Sample.replicaB)).
  - simpl. auto.
  - exact HAB.
  - simpl. intros x [<-|[<-|[<-|[<-|[]]]]] [ss [Hss _]];
      try discriminate; auto.
Defined.

(** ** Prometheus exposition *)

Example GetPrometheusMetrics_sample :
  GetPrometheusMetrics Sample.metricsOk
  = Some ("threads_running{instance=" ++ dquote ++ "db1" ++ dquote ++ "} 3" ++ newline
          ++ "pfs_file_io{instance=" ++ dquote ++ "db1" ++ dquote ++ "} 17" ++ newline).
Proof. reflexivity. Qed.

Example GetPrometheusMetrics_two_fields :
  GetPrometheusMetrics (Sample.metricsOk ++ [Sample.metricShort])%list = None.
Proof. reflexivity. Qed.

Example GetPrometheusMetrics_pfs_three_fields :
  GetPrometheusMetrics [Sample.metricPfsShort] = None.
Proof. reflexivity. Qed.

Lemma prometheusLine_ok (m : graphite.Metric) :
  is_Some (prometheusLine m) <-> metricNameOk m = true.
Proof.
  unfold prometheusLine, metricNameOk, index.
  destruct (strings.Split (graphite.Name m) dot) as [|a [|b [|c [|d rest]]]];
    simpl; try (split; [intros [line Hline]|intros Hok]; discriminate).
  - destruct (c =? "pfs"); simpl;
      (split; [intros [line Hline]|intros Hok]);
      try discriminate; try reflexivity; eexists; reflexivity.
  - destruct (c =? "pfs"); simpl;
      (split; [intros _; reflexivity|intros _; eexists; reflexivity]).
Qed.

Lemma appendMetrics_ok (metrics : list graphite.Metric) (s : string) :
  is_Some (appendMetrics metrics s)
  <-> Forall (fun m => metricNameOk m = true) metrics.
Proof.
  revert s. induction metrics as [|m rest IH]; intros s; simpl.
  - split; [constructor|intros _; now exists s].
  - pose proof (prometheusLine_ok m) as Hm.
    destruct (prometheusLine m) as [line|].
    + rewrite IH. split.
      * intros Hrest. constructor; [|exact Hrest]. apply Hm. now exists line.
      * intros H. now inversion H.
    + split.
      * intros [out Hout]. discriminate.
      * intros H. inversion H as [|? ? Hok _]; subst.
        apply Hm in Hok. destruct Hok as [line Hline]. discriminate.
Qed.

Lemma appendMetrics_None (metrics : list graphite.Metric) (s : string) :
  appendMetrics metrics s = None
  <-> Exists (fun m => metricNameOk m = false) metrics.
Proof.
  revert s. induction metrics as [|m rest IH]; intros s; simpl.
  - split; [discriminate|]. intros H. inversion H.
  - pose proof (prometheusLine_ok m) as Hm.
    destruct (prometheusLine m) as [line|].
    + assert (Hok : metricNameOk m = true) by (apply Hm; now exists line).
      rewrite IH. split.
      * intros H. now apply List.Exists_cons_tl.
      * intros H. inversion H as [? ? Hbad|? ? Hrest]; subst; [|exact Hrest].
        rewrite Hok in Hbad. discriminate.
    + split; [|reflexivity]. intros _. apply List.Exists_cons_hd.
      destruct (metricNameOk m); [|reflexivity].
      destruct (proj2 Hm eq_refl) as [line Hline]. discriminate.
Qed.

(** C10. GetPrometheusMetrics indexes the dot-separated fields of every
    metric name unchecked: it returns a string exactly when every metric
    name has at least three fields, and at least four when the third is
    "pfs"; as soon as one metric breaks this, an index is out of range and
    the call panics. *)
Theorem GetPrometheusMetrics_in_bounds (metrics : list graphite.Metric) :
  (is_Some (GetPrometheusMetrics metrics)
   <-> Forall (fun m => metricNameOk m = true) metrics)
  /\ (GetPrometheusMetrics metrics = None
      <-> Exists (fun m => metricNameOk m = false) metrics).
Proof.
  split; [apply appendMetrics_ok|apply appendMetrics_None].
Qed.

(** ** Connection fallback across a certificate rotation *)

Section ConnectionFacts.

Variable Connect : string -> string -> sqlx.DB + error.
Variable buildDSN : ServerMonitor -> string.

Lemma TLSConfigUsed_SetDSN (server : ServerMonitor) :
  TLSConfigUsed (SetDSN buildDSN server) = TLSConfigUsed server.
Proof. reflexivity. Qed.

(** Without TLS certificates, or when the first attempt succeeds, the node
    is left as it was. *)
Lemma GetNewDBConn_no_fallback (ClusterGroup : Cluster) (server : ServerMonitor) :
  HaveDBTLSCert ClusterGroup = false
  \/ (exists conn, Connect "mysql" (DSN server) = inl conn) ->
  (GetNewDBConn Connect buildDSN ClusterGroup server).1.2 = server.
Proof.
  unfold GetNewDBConn. intros H.
  destruct (_ || _); [reflexivity|].
  destruct (Connect "mysql" (DSN server)) as [conn|err]; [reflexivity|].
  destruct H as [->|[conn H]]; [reflexivity|discriminate].
Qed.

(** Once the fallback is entered, the security state after the call is
    Current whichever retry succeeded or failed. *)
Lemma GetNewDBConn_fallback_state (ClusterGroup : Cluster) (server : ServerMonitor)
    (err : error) :
  config.MasterSlavePgStream (Conf ClusterGroup) = false ->
  config.MasterSlavePgLogical (Conf ClusterGroup) = false ->
  HaveDBTLSCert ClusterGroup = true ->
  Connect "mysql" (DSN server) = inr err ->
  TLSConfigUsed (GetNewDBConn Connect buildDSN ClusterGroup server).1.2
  = ConstTLSCurrentConfig.
Proof.
  intros Hpg1 Hpg2 Htls Hfirst. unfold GetNewDBConn.
  rewrite Hpg1, Hpg2, Hfirst, Htls. cbv zeta.
  destruct (Connect "mysql" (DSN (SetDSN buildDSN _))); reflexivity.
Qed.

(** C3 (amended). In the fallback, when the attempt with the current
    certificate configuration fails and the retry with the old one
    succeeds, the call returns the connection of the retry and raises
    ERR00080, but the node's persisted security state after the call is
    Current, not Old: the state is reset and the DSN rebuilt from it, so the
    next connection attempt starts from Current again. *)
Theorem GetNewDBConn_old_key_resets_to_current
    (ClusterGroup : Cluster) (server : ServerMonitor) (err : error) (conn : sqlx.DB) :
  config.MasterSlavePgStream (Conf ClusterGroup) = false ->
  config.MasterSlavePgLogical (Conf ClusterGroup) = false ->
  HaveDBTLSCert ClusterGroup = true ->
  Connect "mysql" (DSN server) = inr err ->
  Connect "mysql" (buildDSN (withTLSConfigUsed server ConstTLSOldConfig)) = inl conn ->
  let result := GetNewDBConn Connect buildDSN ClusterGroup server in
  result.1.1 = inl (sqlx.SetConnMaxLifetime conn (3595 * time.Second))
  /\ result.2 = [ {| ErrKey := "ERR00080"; ServerUrl := URL server |} ]
  /\ TLSConfigUsed result.1.2 = ConstTLSCurrentConfig
  /\ (exists current, TLSConfigUsed current = ConstTLSCurrentConfig
                      /\ DSN result.1.2 = buildDSN current).
Proof.
  intros Hpg1 Hpg2 Htls Hfirst Hold result. subst result.
  unfold GetNewDBConn. rewrite Hpg1, Hpg2, Hfirst, Htls. simpl.
  rewrite Hold. simpl. repeat split.
  eexists. split; [|reflexivity]. reflexivity.
Qed.

End ConnectionFacts.

(** C3 (as stated, refuted). While the server accepts the old key only, the
    attempt with the current configuration fails, the retry with the old
    one succeeds, and the state persisted on the node after the call is
    Current, not Old. *)
Lemma GetNewDBConn_does_not_persist_old :
  Sample.oldKeyOnly "mysql" (DSN Sample.replicaA)
    = inr "x509: certificate signed by unknown authority"
  /\ (exists conn,
        Sample.oldKeyOnly "mysql"
          (Sample.dsnOf (withTLSConfigUsed Sample.replicaA ConstTLSOldConfig))
        = inl conn)
  /\ TLSConfigUsed
       (GetNewDBConn Sample.oldKeyOnly Sample.dsnOf Sample.pair Sample.replicaA).1.2
     <> ConstTLSOldConfig.
Proof.
  split; [reflexivity|]. split; [eexists; reflexivity|]. discriminate.
Qed.

Lemma GetNewDBConn_old_key_witness :
  TLSConfigUsed
    (GetNewDBConn Sample.oldKeyOnly Sample.dsnOf Sample.pair Sample.replicaA).1.2
  = ConstTLSCurrentConfig
  /\ DSN (GetNewDBConn Sample.oldKeyOnly Sample.dsnOf Sample.pair Sample.replicaA).1.2
     = "db1:3306&tls=tlsconfig".
Proof.
  destruct (GetNewDBConn_old_key_resets_to_current
              Sample.oldKeyOnly Sample.dsnOf Sample.pair Sample.replicaA
              "x509: certificate signed by unknown authority"
              {| sqlx.handle := 1; sqlx.ConnMaxLifetime := 0 |}
              eq_refl eq_refl eq_refl eq_refl eq_refl)
    as (_ & _ & Hstate & _).
  split; [exact Hstate|reflexivity].
Defined.

(** * Further properties *)

(** ** Membership and host lists *)

(** X1. HasServer looks a node up by its URL and by nothing else: it is
    true exactly when some node of the cluster has the URL of the given
    node, so two nodes with the same URL get the same answer whatever
    their other fields are. *)
Theorem HasServer_by_URL (cluster : Cluster) (srv : ServerMonitor) :
  (HasServer cluster srv = true
   <-> exists sv, In sv (Slice.range (Servers cluster)) /\ URL sv = URL srv)
  /\ (forall srv', URL srv' = URL srv ->
        HasServer cluster srv' = HasServer cluster srv).
Proof.
  unfold HasServer. split.
  - rewrite existsb_exists.
    split; intros (sv & Hin & H); exists sv; (split; [exact Hin|]);
      now apply String.eqb_eq.
  - intros srv' Hurl. now rewrite Hurl.
Qed.

Lemma HasServer_by_URL_witness :
  HasServer Sample.pair (Sample.node "db1:3306" "other" 99 None false)
  = HasServer Sample.pair Sample.replicaA.
Proof.
  exact (proj2 (HasServer_by_URL Sample.pair Sample.replicaA)
           (Sample.node "db1:3306" "other" 99 None false) eq_refl).
Defined.

Lemma inHostList_Join (hosts : list string) (server : ServerMonitor) :
  hosts <> [] ->
  Forall commaFree hosts ->
  (inHostList (strings.Split (strings.Join hosts comma) comma) server = true
   <-> In (URL server) hosts \/ In (Name server) hosts).
Proof.
  intros Hne Hclean. rewrite (Split_Join comma hosts Hne Hclean), inHostList_true.
  split.
  - intros (ihost & Hin & [->| ->]); auto.
  - intros [H|H]; eexists; split; eauto.
Qed.

(** X2. A host list configured as host names joined by commas selects
    exactly the nodes whose URL or name is one of these hosts: this holds
    for the ignore list, the preferred backup list, the read-only ignore
    list and the preferred master list alike, when the list is not empty and
    no host name contains a comma. *)
Theorem host_lists_select_their_hosts
    (cluster : Cluster) (server : ServerMonitor) (hosts : list string) :
  hosts <> [] ->
  Forall commaFree hosts ->
  let listed := In (URL server) hosts \/ In (Name server) hosts in
  (config.IgnoreSrv (Conf cluster) = strings.Join hosts comma ->
   (IsInIgnoredHosts cluster server = true <-> listed))
  /\ (config.BackupServers (Conf cluster) = strings.Join hosts comma ->
      (IsInPreferedBackupHosts cluster server = true <-> listed))
  /\ (config.IgnoreSrvRO (Conf cluster) = strings.Join hosts comma ->
      (IsInIgnoredReadonly cluster server = true <-> listed))
  /\ (config.PrefMaster (Conf cluster) = strings.Join hosts comma ->
      (IsInPreferedHosts cluster server = true <-> listed)).
Proof.
  intros Hne Hclean listed. subst listed.
  unfold IsInIgnoredHosts, IsInPreferedBackupHosts, IsInIgnoredReadonly,
    IsInPreferedHosts.
  split; [|split; [|split]]; intros ->; cbv zeta; now apply inHostList_Join.
Qed.

Lemma host_lists_witness :
  IsInIgnoredHosts (Sample.cluster Sample.kube None None) Sample.replicaC = true.
Proof.
  apply (proj1 (host_lists_select_their_hosts
                  (Sample.cluster Sample.kube None None) Sample.replicaC
                  ["db3"; "db4"] ltac:(discriminate)
                  ltac:(repeat constructor)) eq_refl).
  right. left. reflexivity.
Defined.

(** ** The node set *)

Lemma existsb_Permutation {A : Type} (p : A -> bool) (l l' : list A) :
  Permutation l l' -> existsb p l = existsb p l'.
Proof.
  induction 1 as [|x l l' _ IH|x y l|l l' l'' _ IH1 _ IH2]; simpl.
  - reflexivity.
  - now rewrite IH.
  - now destruct (p x), (p y).
  - now rewrite IH1.
Qed.

(** X3. The aggregate predicates over the nodes do not depend on the order
    of the nodes: HasAllDbUp, HasRequestDBRestart,
    HasRequestDBRollingRestart, HasRequestDBRollingReprov and
    HasRequestDBReprov give the same answer on any reordering of the same
    nodes. *)
Theorem node_order_is_irrelevant
    (cluster : Cluster) (servers servers' : list ServerMonitor) :
  Permutation servers servers' ->
  let c := withServers cluster (Some servers) in
  let c' := withServers cluster (Some servers') in
  HasAllDbUp c = HasAllDbUp c'
  /\ HasRequestDBRestart c = HasRequestDBRestart c'
  /\ HasRequestDBRollingRestart c = HasRequestDBRollingRestart c'
  /\ HasRequestDBRollingReprov c = HasRequestDBRollingReprov c'
  /\ HasRequestDBReprov c = HasRequestDBReprov c'.
Proof.
  intros Hperm c c'. subst c c'.
  unfold HasAllDbUp, HasRequestDBRestart, HasRequestDBRollingRestart,
    HasRequestDBRollingReprov, HasRequestDBReprov. simpl.
  repeat split; now rewrite (existsb_Permutation _ _ _ Hperm).
Qed.

Lemma node_order_witness :
  HasAllDbUp (withServers Sample.scenario
                (Some [Sample.replicaA; Sample.failedNode; Sample.replicaC]))
  = HasAllDbUp (withServers Sample.scenario
                  (Some [Sample.failedNode; Sample.replicaA; Sample.replicaC])).
Proof.
  apply (node_order_is_irrelevant Sample.scenario
           [Sample.replicaA; Sample.failedNode; Sample.replicaC]
           [Sample.failedNode; Sample.replicaA; Sample.replicaC]).
  apply perm_swap.
Defined.

(** X4. On a cluster with at least one node, a rolling request implies the
    single request: when HasRequestDBRollingRestart is true so is
    HasRequestDBRestart, and when HasRequestDBRollingReprov is true so is
    HasRequestDBReprov. *)
Theorem rolling_request_implies_request (cluster : Cluster) :
  Slice.range (Servers cluster) <> [] ->
  (HasRequestDBRollingRestart cluster = true -> HasRequestDBRestart cluster = true)
  /\ (HasRequestDBRollingReprov cluster = true -> HasRequestDBReprov cluster = true).
Proof.
  unfold HasRequestDBRollingRestart, HasRequestDBRestart,
    HasRequestDBRollingReprov, HasRequestDBReprov.
  destruct (Servers cluster) as [[|s rest]|]; simpl; intros Hne;
    try contradiction.
  split.
  - destruct (HasRestartCookie s); simpl; [reflexivity|discriminate].
  - destruct (HasReprovCookie s); simpl; [reflexivity|discriminate].
Qed.

Lemma rolling_request_witness :
  HasRequestDBRestart Sample.pair = true.
Proof.
  apply (proj1 (rolling_request_implies_request Sample.pair ltac:(discriminate))).
  reflexivity.
Defined.

(** X5. When HasAllDbUp holds, no node of the cluster makes
    IsMasterFailed true: a master that is one of the nodes is then not
    failed.  Conversely a failed master among the nodes makes HasAllDbUp
    false. *)
Theorem all_up_master_not_failed (cluster : Cluster) (master : ServerMonitor) :
  In master (Slice.range (Servers cluster)) ->
  (HasAllDbUp cluster = true -> IsMasterFailed (Some master) = false)
  /\ (IsMasterFailed (Some master) = true -> HasAllDbUp cluster = false).
Proof.
  intros Hin.
  assert (H : HasAllDbUp cluster = true -> IsMasterFailed (Some master) = false).
  { unfold HasAllDbUp, IsMasterFailed.
    destruct (Slice.is_nil (Servers cluster)); [discriminate|].
    intros Hup. apply negb_true_iff in Hup.
    apply existsb_false_Forall in Hup.
    rewrite List.Forall_forall in Hup. apply Hup in Hin.
    apply orb_false_iff in Hin as [Hf _]. now rewrite Hf. }
  split; [exact H|].
  intros Hfailed. destruct (HasAllDbUp cluster); [|reflexivity].
  rewrite H in Hfailed; [discriminate|reflexivity].
Qed.

Lemma all_up_master_witness :
  IsMasterFailed (Some Sample.replicaA) = false
  /\ HasAllDbUp Sample.scenario = false.
Proof.
  split.
  - apply (proj1 (all_up_master_not_failed Sample.pair Sample.replicaA
                    ltac:(simpl; auto))).
    reflexivity.
  - apply (proj2 (all_up_master_not_failed Sample.scenario Sample.failedNode
                    ltac:(simpl; auto))).
    reflexivity.
Defined.

(** ** Siblings and replication accessors *)

(** X6. The node GetSibling returns is a node of the cluster, has another
    ServerID than the given node (so it is never the node itself), has a
    status record for its own channel and replicates from the same upstream
    server identifier as the given node. *)
Theorem GetSibling_sound (cluster : Cluster) (server sibling : ServerMonitor) :
  GetSibling cluster server = Some sibling ->
  In sibling (Slice.range (Servers cluster))
  /\ ServerID sibling <> ServerID server
  /\ sibling <> server
  /\ (exists ss, GetSlaveStatus sibling (ReplicationSourceName sibling) = inl ss)
  /\ GetReplicationServerID sibling = GetReplicationServerID server.
Proof.
  unfold GetSibling, GetReplicationServerID.
  destruct (GetSlaveStatus server (ReplicationSourceName server)) as [ss|err];
    [|discriminate].
  intros H. apply findSibling_Some in H as (Hin & (sssib & Hs & Hup) & Hid).
  repeat split; try assumption.
  - intros ->. now apply Hid.
  - now exists sssib.
  - now rewrite Hs.
Qed.

Lemma GetSibling_sound_witness :
  In Sample.replicaC (Slice.range (Servers Sample.scenario))
  /\ ServerID Sample.replicaC <> ServerID Sample.replicaA
  /\ Sample.replicaC <> Sample.replicaA
  /\ (exists ss, GetSlaveStatus Sample.replicaC
                   (ReplicationSourceName Sample.replicaC) = inl ss)
  /\ GetReplicationServerID Sample.replicaC = GetReplicationServerID Sample.replicaA.
Proof.
  exact (GetSibling_sound Sample.scenario Sample.replicaA Sample.replicaC eq_refl).
Defined.

(** X7. GetSibling returns nil exactly when the node has no status record
    for its channel, or no node of the cluster reports the node's upstream
    identifier under another ServerID. *)
Theorem GetSibling_none_iff (cluster : Cluster) (server : ServerMonitor) :
  GetSibling cluster server = None
  <-> (exists e, GetSlaveStatus server (ReplicationSourceName server) = inr e)
      \/ (forall sl, In sl (Slice.range (Servers cluster)) ->
            ~ (reportsUpstream sl (GetReplicationServerID server)
               /\ ServerID sl <> ServerID server)).
Proof.
  destruct (GetSlaveStatus server (ReplicationSourceName server)) as [ss|err] eqn:E.
  - destruct (GetSibling_status cluster server ss E) as [-> ->].
    rewrite findSibling_None. split; [now right|].
    intros [[e He]|H]; [discriminate|exact H].
  - unfold GetSibling. rewrite E. split; [|reflexivity].
    intros _. left. now exists err.
Qed.

Lemma first_occurrence_unique {A : Type} (x : A) (b1 a1 b2 a2 : list A) :
  (b1 ++ x :: a1)%list = (b2 ++ x :: a2)%list ->
  ~ In x b1 -> ~ In x b2 -> b1 = b2.
Proof.
  revert b2. induction b1 as [|y b1 IH]; intros [|z b2]; simpl; intros Heq H1 H2.
  - reflexivity.
  - injection Heq as -> _. exfalso. apply H2. now left.
  - injection Heq as -> _. exfalso. apply H1. now left.
  - injection Heq as -> Heq. f_equal. apply IH; [exact Heq|tauto|tauto].
Qed.

(** X8. GetSibling returns the first qualifying node in the order of the
    cluster's node list: every node listed before the returned node (before
    its first occurrence) fails to qualify, that is, it has no status
    record, reports another upstream identifier, or has the ServerID of the
    given node. *)
Theorem GetSibling_first_match
    (cluster : Cluster) (server sibling : ServerMonitor)
    (before after : list ServerMonitor) :
  GetSibling cluster server = Some sibling ->
  Slice.range (Servers cluster) = (before ++ sibling :: after)%list ->
  ~ In sibling before ->
  forall sl, In sl before -> ~ siblingOf server sl.
Proof.
  intros H Heq Hfresh.
  apply GetSibling_Some_iff in H
    as (_ & before' & after' & Heq' & Hsib & Hbefore').
  assert (Hfresh' : ~ In sibling before').
  { intros Hin. exact (Hbefore' sibling Hin Hsib). }
  rewrite Heq in Heq'.
  now rewrite (first_occurrence_unique sibling _ _ _ _ Heq' Hfresh Hfresh').
Qed.

(** In [Sample2.mixed] the sibling of A is B, the last of four nodes: the
    three nodes before it, among them A itself, do not qualify. *)
Lemma GetSibling_first_match_witness :
  GetSibling Sample2.mixed Sample.replicaA = Some Sample.replicaB
  /\ forall sl,
       In sl [Sample.standalone; Sample.replicaA; Sample.failedNode] ->
       ~ siblingOf Sample.replicaA sl.
Proof.
  split; [reflexivity|].
  apply (GetSibling_first_match Sample2.mixed Sample.replicaA Sample.replicaB
           [Sample.standalone; Sample.replicaA; Sample.failedNode] []).
  - reflexivity.
  - reflexivity.
  - intros [H|[H|[H|[]]]]; discriminate.
Defined.

(** X9. When no status record of the node carries the name of its
    replication source (in particular when it has no record at all), the
    replication accessors fall back to their defaults: server identifier 0,
    master host "", master port "3306", GTID "No" on MariaDB, and no
    sibling in any cluster. *)
Theorem replication_accessors_defaults (server : ServerMonitor) :
  (forall ss, In ss (Slice.range (Replications server)) ->
     channelName ss <> ReplicationSourceName server) ->
  GetReplicationServerID server = 0%N
  /\ GetReplicationMasterHost server = ""
  /\ GetReplicationMasterPort server = "3306"
  /\ (forall HaveMySQLGTID, GetReplicationUsingGtid true HaveMySQLGTID server = "No")
  /\ (forall cluster, GetSibling cluster server = None).
Proof.
  intros Hnone.
  assert (E : GetSlaveStatus server (ReplicationSourceName server)
              = inr "Empty replications channels").
  { rewrite GetSlaveStatus_findChannel.
    now rewrite (proj2 (findChannel_None _ _) Hnone). }
  unfold GetReplicationServerID, GetReplicationMasterHost, GetReplicationMasterPort,
    GetReplicationUsingGtid, GetSibling.
  rewrite E. repeat split.
Qed.

Lemma replication_accessors_defaults_witness :
  GetReplicationServerID Sample.standalone = 0%N
  /\ GetReplicationMasterHost Sample.standalone = ""
  /\ GetReplicationMasterPort Sample.standalone = "3306"
  /\ (forall HaveMySQLGTID,
        GetReplicationUsingGtid true HaveMySQLGTID Sample.standalone = "No")
  /\ (forall cluster, GetSibling cluster Sample.standalone = None).
Proof.
  apply (replication_accessors_defaults Sample.standalone).
  intros ss [].
Defined.

(** ** Status records *)

Lemma findChannel_app (before after : list dbhelper.SlaveStatus) (name : string) :
  findChannel (before ++ after)%list name
  = match findChannel before name with
    | Some ss => Some ss
    | None => findChannel after name
    end.
Proof.
  induction before as [|r rest IH]; simpl; [reflexivity|].
  now destruct (_ =? name).
Qed.

Lemma findChannel_split (records : list dbhelper.SlaveStatus) (name : string)
    (ss : dbhelper.SlaveStatus) :
  findChannel records name = Some ss ->
  exists before after,
    records = (before ++ ss :: after)%list
    /\ findChannel before name = None.
Proof.
  induction records as [|r rest IH]; simpl; [discriminate|].
  destruct (_ =? name) eqn:E.
  - intros [= <-]. now exists [], rest.
  - intros H. destruct (IH H) as (before & after & -> & Hnone).
    exists (r :: before), after. split; [reflexivity|].
    simpl. now rewrite E.
Qed.

(** X10. GetSlaveStatus returns the first record of the given channel
    name: it returns [ss] exactly when [ss] carries the name and stands in
    the node's records after records of other names only; a later record
    of the same name is never returned. *)
Theorem GetSlaveStatus_first_record
    (server : ServerMonitor) (name : string) (ss : dbhelper.SlaveStatus) :
  GetSlaveStatus server name = inl ss
  <-> exists before after,
        Slice.range (Replications server) = (before ++ ss :: after)%list
        /\ channelName ss = name
        /\ forall r, In r before -> channelName r <> name.
Proof.
  rewrite GetSlaveStatus_findChannel. split.
  - destruct (findChannel _ name) as [found|] eqn:E; [|discriminate].
    intros [= ->].
    destruct (findChannel_Some _ _ _ E) as [_ Hname].
    destruct (findChannel_split _ _ _ E) as (before & after & Heq & Hnone).
    exists before, after. repeat split; try assumption.
    now apply findChannel_None.
  - intros (before & after & -> & Hname & Hbefore).
    rewrite findChannel_app, (proj2 (findChannel_None _ _) Hbefore). simpl.
    unfold channelName in Hname. rewrite Hname, String.eqb_refl. reflexivity.
Qed.

(** X11. GetSlaveStatusLastSeen answers from the last-seen records alone
    as soon as they are not nil, as GetSlaveStatus would on a node holding
    them as its records: a name they lack is an error even when the live
    records have it.  Only when the last-seen records are nil does it
    answer as GetSlaveStatus does on the live records. *)
Theorem GetSlaveStatusLastSeen_cases
    (LastSeenReplications : Slice.t dbhelper.SlaveStatus)
    (server : ServerMonitor) (name : string) :
  (Slice.is_nil LastSeenReplications = true ->
   GetSlaveStatusLastSeen LastSeenReplications server name
   = GetSlaveStatus server name)
  /\ (Slice.is_nil LastSeenReplications = false ->
      GetSlaveStatusLastSeen LastSeenReplications server name
      = GetSlaveStatus (withReplications server LastSeenReplications) name
      /\ ((forall ss, In ss (Slice.range LastSeenReplications) ->
             channelName ss <> name) ->
          GetSlaveStatusLastSeen LastSeenReplications server name
          = inr "Empty replications channels")).
Proof.
  unfold GetSlaveStatusLastSeen. split; intros Hnil; rewrite Hnil; simpl.
  - reflexivity.
  - split.
    + rewrite GetSlaveStatus_findChannel. reflexivity.
    + intros Hnone. now rewrite (proj2 (findChannel_None _ _) Hnone).
Qed.

Lemma GetSlaveStatusLastSeen_witness :
  GetSlaveStatusLastSeen None Sample.replicaA "" = GetSlaveStatus Sample.replicaA ""
  /\ GetSlaveStatusLastSeen (Some []) Sample.replicaA ""
     = inr "Empty replications channels".
Proof.
  split.
  - exact (proj1 (GetSlaveStatusLastSeen_cases None Sample.replicaA "") eq_refl).
  - apply (proj2 (GetSlaveStatusLastSeen_cases (Some []) Sample.replicaA "") eq_refl).
    intros ss [].
Defined.

(** ** IsProvisioned, again *)

Section ProvisioningMore.

Variable IsRunning : ServerMonitor -> bool.
Variable ProxyIsRunning : Proxy.t -> bool.

Lemma provisionServers_provisioned (dbs : list ServerMonitor) :
  Forall (fun db => HasProvisionCookie db = true) dbs ->
  provisionServers IsRunning dbs = (true, dbs, []).
Proof.
  induction 1 as [|db rest Hdb _ IH]; simpl; [reflexivity|].
  now rewrite Hdb, IH.
Qed.

Lemma provisionProxies_provisioned (pxs : list Proxy.t) :
  Forall (fun px => Proxy.HasProvisionCookie px = true) pxs ->
  provisionProxies ProxyIsRunning pxs = (true, pxs, []).
Proof.
  induction 1 as [|px rest Hpx _ IH]; simpl; [reflexivity|].
  now rewrite Hpx, IH.
Qed.

Lemma stored_range {A : Type} (s : Slice.t A) : stored s (Slice.range s) = s.
Proof. now destruct s. Qed.

(** On a cluster whose nodes and proxies all carry the cookie the call
    changes nothing. *)
Lemma IsProvisioned_provisioned (cluster : Cluster) :
  Forall (fun db => HasProvisionCookie db = true) (Slice.range (Servers cluster)) ->
  Forall (fun px => Proxy.HasProvisionCookie px = true)
         (Slice.range (Proxies cluster)) ->
  (IsProvisioned IsRunning ProxyIsRunning cluster).2 = cluster.
Proof.
  intros Hdbs Hpxs. unfold IsProvisioned.
  destruct (_ =? config.ConstOrchestratorOnPremise); [reflexivity|].
  destruct (_ =? ""); [reflexivity|].
  rewrite (provisionServers_provisioned _ Hdbs). simpl.
  rewrite (provisionProxies_provisioned _ Hpxs). simpl.
  rewrite !stored_range, !app_nil_r. now destruct cluster.
Qed.

Lemma provisionServers_steps (dbs : list ServerMonitor) :
  Forall2 (serverStep IsRunning) dbs (provisionServers IsRunning dbs).1.2.
Proof.
  induction dbs as [|db rest IH]; simpl; [constructor|].
  destruct (provisionServers IsRunning rest) as [[ok rest'] lines]. simpl in IH.
  destruct (HasProvisionCookie db) eqn:Hc; simpl.
  - constructor; [now left|exact IH].
  - destruct (IsRunning db) eqn:Hr; simpl.
    + constructor; [right; auto|exact IH].
    + constructor; [now left|].
      clear. induction rest; constructor; [now left|assumption].
Qed.

Lemma provisionProxies_steps (pxs : list Proxy.t) :
  Forall2 (proxyStep ProxyIsRunning) pxs (provisionProxies ProxyIsRunning pxs).1.2.
Proof.
  induction pxs as [|px rest IH]; simpl; [constructor|].
  destruct (provisionProxies ProxyIsRunning rest) as [[ok rest'] lines]. simpl in IH.
  destruct (Proxy.HasProvisionCookie px) eqn:Hc; simpl.
  - constructor; [now left|exact IH].
  - destruct (ProxyIsRunning px) eqn:Hr; simpl.
    + constructor; [right; auto|exact IH].
    + constructor; [now left|].
      clear. induction rest; constructor; [now left|assumption].
Qed.

Lemma Forall2_refl_step {A : Type} (R : A -> A -> Prop) (l : list A) :
  (forall x, R x x) -> Forall2 R l l.
Proof. intros HR. induction l; constructor; auto. Qed.

(** X12. Whatever it returns, IsProvisioned only ever sets provision
    cookies: the configuration and the flags of the cluster are unchanged,
    the node and proxy lists keep their length and order, each node and
    each proxy is either untouched or was running without cookie and got
    it, and the log only grows. *)
Theorem IsProvisioned_only_sets_cookies (cluster : Cluster) :
  let cluster' := (IsProvisioned IsRunning ProxyIsRunning cluster).2 in
  Conf cluster' = Conf cluster
  /\ IsNotMonitoring cluster' = IsNotMonitoring cluster
  /\ HaveDBTLSCert cluster' = HaveDBTLSCert cluster
  /\ Forall2 (serverStep IsRunning) (Slice.range (Servers cluster))
                        (Slice.range (Servers cluster'))
  /\ Forall2 (proxyStep ProxyIsRunning) (Slice.range (Proxies cluster))
                       (Slice.range (Proxies cluster'))
  /\ exists lines, Log cluster' = (Log cluster ++ lines)%list.
Proof.
  intros cluster'. subst cluster'. unfold IsProvisioned.
  assert (Hsame :
    Conf cluster = Conf cluster
    /\ IsNotMonitoring cluster = IsNotMonitoring cluster
    /\ HaveDBTLSCert cluster = HaveDBTLSCert cluster
    /\ Forall2 (serverStep IsRunning) (Slice.range (Servers cluster))
                          (Slice.range (Servers cluster))
    /\ Forall2 (proxyStep ProxyIsRunning) (Slice.range (Proxies cluster))
                         (Slice.range (Proxies cluster))
    /\ exists lines, Log cluster = (Log cluster ++ lines)%list).
  { repeat split; try (apply Forall2_refl_step; intros x; now left).
    exists []. now rewrite app_nil_r. }
  destruct (_ =? config.ConstOrchestratorOnPremise); [exact Hsame|].
  destruct (_ =? ""); [exact Hsame|]. clear Hsame.
  pose proof (provisionServers_steps (Slice.range (Servers cluster))) as Hdb.
  pose proof (range_stored_servers IsRunning (Servers cluster)) as Hrs.
  destruct (provisionServers IsRunning (Slice.range (Servers cluster)))
    as [[ok dbs] lines]. simpl in Hdb, Hrs.
  destruct ok; simpl.
  - pose proof (provisionProxies_steps (Slice.range (Proxies cluster))) as Hpx.
    pose proof (range_stored_proxies ProxyIsRunning (Proxies cluster)) as Hrp.
    destruct (provisionProxies ProxyIsRunning (Slice.range (Proxies cluster)))
      as [[ok pxs] lines']. simpl in Hpx, Hrp. simpl.
    rewrite Hrs, Hrp. repeat split; try assumption.
    exists (lines ++ lines')%list. now rewrite app_assoc.
  - rewrite Hrs. repeat split; try assumption.
    + apply Forall2_refl_step. intros x. now left.
    + now exists lines.
Qed.

End ProvisioningMore.

Lemma IsProvisioned_Conf
    (IsRunning : ServerMonitor -> bool) (ProxyIsRunning : Proxy.t -> bool)
    (cluster : Cluster) :
  Conf (IsProvisioned IsRunning ProxyIsRunning cluster).2 = Conf cluster.
Proof.
  unfold IsProvisioned.
  destruct (_ =? config.ConstOrchestratorOnPremise); [reflexivity|].
  destruct (_ =? ""); [reflexivity|].
  destruct (provisionServers IsRunning (Slice.range (Servers cluster)))
    as [[ok dbs] lines].
  destruct ok; simpl; [|reflexivity].
  now destruct (provisionProxies ProxyIsRunning _) as [[ok pxs] lines'].
Qed.

Lemma IsProvisioned_true_cookies
    (IsRunning : ServerMonitor -> bool) (ProxyIsRunning : Proxy.t -> bool)
    (cluster : Cluster) :
  config.ProvOrchestrator (Conf cluster) <> config.ConstOrchestratorOnPremise ->
  (IsProvisioned IsRunning ProxyIsRunning cluster).1 = true ->
  Forall (fun db => HasProvisionCookie db = true)
         (Slice.range (Servers (IsProvisioned IsRunning ProxyIsRunning cluster).2))
  /\ Forall (fun px => Proxy.HasProvisionCookie px = true)
            (Slice.range (Proxies (IsProvisioned IsRunning ProxyIsRunning cluster).2)).
Proof.
  intros Hoff. apply String.eqb_neq in Hoff. unfold IsProvisioned. rewrite Hoff.
  destruct (_ =? ""); [discriminate|].
  pose proof (provisionServers_cookies IsRunning (Slice.range (Servers cluster))) as Hdbc.
  pose proof (range_stored_servers IsRunning (Servers cluster)) as Hrs.
  destruct (provisionServers IsRunning (Slice.range (Servers cluster)))
    as [[ok dbs] lines]. simpl in Hdbc, Hrs.
  destruct ok; simpl; [|discriminate].
  pose proof (provisionProxies_cookies ProxyIsRunning (Slice.range (Proxies cluster))) as Hpxc.
  pose proof (range_stored_proxies ProxyIsRunning (Proxies cluster)) as Hrp.
  destruct (provisionProxies ProxyIsRunning (Slice.range (Proxies cluster)))
    as [[ok pxs] lines']. simpl in Hpxc, Hrp. simpl.
  rewrite Hrs, Hrp. intros Hok. split; [now apply Hdbc|now apply Hpxc].
Qed.

(** X13. After IsProvisioned has returned true, calling it again returns
    true and changes nothing more (no cookie written, no line logged),
    even if by then no node and no proxy answers any longer. *)
Theorem IsProvisioned_idempotent
    (IsRunning IsRunning' : ServerMonitor -> bool)
    (ProxyIsRunning ProxyIsRunning' : Proxy.t -> bool) (cluster : Cluster) :
  (IsProvisioned IsRunning ProxyIsRunning cluster).1 = true ->
  IsProvisioned IsRunning' ProxyIsRunning'
    (IsProvisioned IsRunning ProxyIsRunning cluster).2
  = (true, (IsProvisioned IsRunning ProxyIsRunning cluster).2).
Proof.
  intros Hok.
  destruct (String.eqb_spec (config.ProvOrchestrator (Conf cluster))
                            config.ConstOrchestratorOnPremise) as [Hon|Hoff].
  - apply String.eqb_eq in Hon. unfold IsProvisioned. rewrite Hon. simpl.
    now rewrite Hon.
  - destruct (IsProvisioned_true_cookies _ _ _ Hoff Hok) as [Hdbs Hpxs].
    pose proof (IsProvisioned_provisioned IsRunning' ProxyIsRunning' _ Hdbs Hpxs)
      as Hsame.
    pose proof (IsProvisioned_Conf IsRunning ProxyIsRunning cluster) as Hconf.
    set (cluster' := (IsProvisioned IsRunning ProxyIsRunning cluster).2) in *.
    assert (Hhosts : (config.Hosts (Conf cluster) =? "") = false).
    { unfold IsProvisioned in Hok. apply String.eqb_neq in Hoff.
      rewrite Hoff in Hok. destruct (_ =? ""); [discriminate|reflexivity]. }
    destruct (IsProvisioned IsRunning' ProxyIsRunning' cluster') as [ok c2] eqn:E.
    simpl in Hsame. subst c2. f_equal.
    unfold IsProvisioned in E. rewrite Hconf in E.
    apply String.eqb_neq in Hoff. rewrite Hoff, Hhosts in E.
    rewrite (provisionServers_provisioned IsRunning' _ Hdbs) in E. simpl in E.
    rewrite (provisionProxies_provisioned ProxyIsRunning' _ Hpxs) in E.
    now injection E as <- _.
Qed.

(** X26. IsProvisioned fails fast on the nodes: when some node has no
    provision cookie and is not running, it returns false without visiting
    the proxies, which are left exactly as they were. *)
Theorem IsProvisioned_fails_before_proxies
    (IsRunning : ServerMonitor -> bool) (ProxyIsRunning : Proxy.t -> bool)
    (cluster : Cluster) :
  config.ProvOrchestrator (Conf cluster) <> config.ConstOrchestratorOnPremise ->
  config.Hosts (Conf cluster) <> "" ->
  ~ Forall (serverPasses IsRunning) (Slice.range (Servers cluster)) ->
  (IsProvisioned IsRunning ProxyIsRunning cluster).1 = false
  /\ Proxies (IsProvisioned IsRunning ProxyIsRunning cluster).2 = Proxies cluster.
Proof.
  intros Hoff Hhosts Hfail. apply String.eqb_neq in Hoff, Hhosts.
  unfold IsProvisioned. rewrite Hoff, Hhosts.
  pose proof (provisionServers_ok IsRunning (Slice.range (Servers cluster))) as Hok.
  destruct (provisionServers IsRunning (Slice.range (Servers cluster)))
    as [[ok dbs] lines]. simpl in Hok.
  destruct ok; simpl; [|split; reflexivity].
  exfalso. apply Hfail. now apply Hok.
Qed.

Lemma IsProvisioned_fails_before_proxies_witness :
  (IsProvisioned Sample.noneRunning Sample.proxiesRunning Sample.pair).1 = false
  /\ Proxies (IsProvisioned Sample.noneRunning Sample.proxiesRunning Sample.pair).2
     = Proxies Sample.pair.
Proof.
  apply (IsProvisioned_fails_before_proxies Sample.noneRunning
           Sample.proxiesRunning Sample.pair).
  - discriminate.
  - discriminate.
  - intros H. inversion H as [|? ? [Hc|Hr] _]; discriminate.
Defined.

Lemma IsProvisioned_idempotent_witness :
  IsProvisioned Sample.noneRunning Sample.proxiesRunning
    (IsProvisioned Sample.allRunning Sample.proxiesRunning Sample.pair).2
  = (true, (IsProvisioned Sample.allRunning Sample.proxiesRunning Sample.pair).2).
Proof.
  exact (IsProvisioned_idempotent Sample.allRunning Sample.noneRunning
           Sample.proxiesRunning Sample.proxiesRunning Sample.pair eq_refl).
Defined.

(** ** GetNewDBConn, again *)

Section ConnectionMore.

Variable Connect : string -> string -> sqlx.DB + error.
Variable buildDSN : ServerMonitor -> string.

(** X14. When the cluster replicates PostgreSQL, has no TLS certificates,
    or the first connection succeeds, GetNewDBConn returns exactly the
    answer of connecting with the node's DSN as it stands (driver
    "postgres" for PostgreSQL, "mysql" otherwise), leaves the node as it
    was and raises no alert. *)
Theorem GetNewDBConn_first_answer (ClusterGroup : Cluster) (server : ServerMonitor) :
  let postgres := config.MasterSlavePgStream (Conf ClusterGroup)
                  || config.MasterSlavePgLogical (Conf ClusterGroup) in
  let driver := if postgres then "postgres" else "mysql" in
  postgres = true
  \/ HaveDBTLSCert ClusterGroup = false
  \/ (exists conn, Connect "mysql" (DSN server) = inl conn) ->
  GetNewDBConn Connect buildDSN ClusterGroup server
  = (Connect driver (DSN server), server, []).
Proof.
  intros postgres driver H. subst postgres driver. unfold GetNewDBConn.
  destruct (_ || _); [reflexivity|].
  destruct (Connect "mysql" (DSN server)) as [conn|err] eqn:E; [reflexivity|].
  destruct H as [H|[->|[conn H]]]; [discriminate|reflexivity|discriminate].
Qed.


(** X15. The security state GetNewDBConn leaves on the node is never one
    it tried on the way: either the node is untouched, or its state is
    Current and its DSN was rebuilt under that state.  So a node in state
    Current stays in state Current whatever the network answers. *)
Theorem GetNewDBConn_leaves_current (ClusterGroup : Cluster) (server : ServerMonitor) :
  let server' := (GetNewDBConn Connect buildDSN ClusterGroup server).1.2 in
  (server' = server
   \/ (TLSConfigUsed server' = ConstTLSCurrentConfig
       /\ exists current, TLSConfigUsed current = ConstTLSCurrentConfig
                          /\ DSN server' = buildDSN current))
  /\ (TLSConfigUsed server = ConstTLSCurrentConfig ->
      TLSConfigUsed server' = ConstTLSCurrentConfig).
Proof.
  intros server'. subst server'.
  assert (H : (GetNewDBConn Connect buildDSN ClusterGroup server).1.2 = server
              \/ (TLSConfigUsed (GetNewDBConn Connect buildDSN ClusterGroup server).1.2
                  = ConstTLSCurrentConfig
                  /\ exists current,
                       TLSConfigUsed current = ConstTLSCurrentConfig
                       /\ DSN (GetNewDBConn Connect buildDSN ClusterGroup server).1.2
                          = buildDSN current)).
  { unfold GetNewDBConn.
    destruct (_ || _); [now left|].
    destruct (Connect "mysql" (DSN server)); [now left|].
    destruct (HaveDBTLSCert ClusterGroup); [|now left].
    right. cbv zeta.
    destruct (Connect "mysql" (DSN (SetDSN buildDSN _))); simpl;
      (split; [reflexivity|eexists; split; [|reflexivity]; reflexivity]). }
  split; [exact H|].
  intros Hcur. destruct H as [->|[H _]]; assumption.
Qed.


(** X16. GetNewDBConn raises an alert exactly when, on a MySQL or MariaDB
    cluster with TLS certificates, the first attempt fails and the retry
    with the old key succeeds; the alert is then the single ERR00080 for
    the node's URL.  A connection obtained without any certificate raises
    no alert. *)
Theorem GetNewDBConn_alert_iff (ClusterGroup : Cluster) (server : ServerMonitor) :
  let events := (GetNewDBConn Connect buildDSN ClusterGroup server).2 in
  (events <> []
   <-> config.MasterSlavePgStream (Conf ClusterGroup)
       || config.MasterSlavePgLogical (Conf ClusterGroup) = false
       /\ HaveDBTLSCert ClusterGroup = true
       /\ (exists err, Connect "mysql" (DSN server) = inr err)
       /\ (exists conn, Connect "mysql" (DSN (withOldKey buildDSN server)) = inl conn))
  /\ (events = [] \/ events = [ {| ErrKey := "ERR00080"; ServerUrl := URL server |} ]).
Proof.
  intros events. subst events. unfold GetNewDBConn, withOldKey.
  destruct (_ || _).
  { split; [|now left]. split; [intros H; now contradiction H|].
    intros (H & _). discriminate. }
  destruct (Connect "mysql" (DSN server)) as [conn|err].
  { split; [|now left]. split; [intros H; now contradiction H|].
    intros (_ & _ & [e He] & _). discriminate. }
  destruct (HaveDBTLSCert ClusterGroup).
  2:{ split; [|now left]. split; [intros H; now contradiction H|].
      intros (_ & H & _). discriminate. }
  cbv zeta.
  destruct (Connect "mysql" (DSN (SetDSN buildDSN _))) as [conn|err2]; simpl.
  - split; [|now right]. split; [|discriminate].
    intros _. repeat split; eauto.
  - split; [|now left]. split; [intros H; now contradiction H|].
    intros (_ & _ & _ & [conn Hc]). discriminate.
Qed.

(** X17. When the first attempt and the retry with the old key both fail,
    GetNewDBConn returns whatever the third attempt, without client
    certificate, gives: its connection as it is (no lifetime set) or its
    error, not the error of an earlier attempt; no alert is raised. *)
Theorem GetNewDBConn_last_resort
    (ClusterGroup : Cluster) (server : ServerMonitor) (err err' : error) :
  config.MasterSlavePgStream (Conf ClusterGroup) = false ->
  config.MasterSlavePgLogical (Conf ClusterGroup) = false ->
  HaveDBTLSCert ClusterGroup = true ->
  Connect "mysql" (DSN server) = inr err ->
  Connect "mysql" (DSN (withOldKey buildDSN server)) = inr err' ->
  let result := GetNewDBConn Connect buildDSN ClusterGroup server in
  result.1.1 = Connect "mysql" (DSN (withoutCert buildDSN server))
  /\ TLSConfigUsed (withoutCert buildDSN server) = ConstTLSNoConfig
  /\ result.2 = [].
Proof.
  intros Hpg1 Hpg2 Htls Hfirst Hold result. subst result.
  unfold GetNewDBConn, withoutCert, withOldKey in *.
  rewrite Hpg1, Hpg2, Hfirst, Htls. cbv zeta. rewrite Hold. repeat split.
Qed.

End ConnectionMore.

Lemma GetNewDBConn_first_answer_witness :
  GetNewDBConn Sample.oldKeyOnly Sample.dsnOf Sample2.plainCluster Sample.replicaA
  = (Sample.oldKeyOnly "mysql" (DSN Sample.replicaA), Sample.replicaA, []).
Proof.
  apply (GetNewDBConn_first_answer Sample.oldKeyOnly Sample.dsnOf
           Sample2.plainCluster Sample.replicaA).
  right. left. reflexivity.
Defined.

Lemma GetNewDBConn_leaves_current_witness :
  TLSConfigUsed
    (GetNewDBConn Sample2.unreachable Sample.dsnOf Sample.pair Sample.replicaA).1.2
  = ConstTLSCurrentConfig.
Proof.
  exact (proj2 (GetNewDBConn_leaves_current Sample2.unreachable Sample.dsnOf
                  Sample.pair Sample.replicaA) eq_refl).
Defined.

Lemma GetNewDBConn_last_resort_witness :
  (GetNewDBConn Sample2.noCertOnly Sample.dsnOf Sample.pair Sample.replicaA).1.1
  = inl {| sqlx.handle := 2; sqlx.ConnMaxLifetime := 0 |}
  /\ (GetNewDBConn Sample2.noCertOnly Sample.dsnOf Sample.pair Sample.replicaA).2 = [].
Proof.
  destruct (GetNewDBConn_last_resort Sample2.noCertOnly Sample.dsnOf
              Sample.pair Sample.replicaA
              "x509: certificate signed by unknown authority"
              "x509: certificate signed by unknown authority"
              eq_refl eq_refl eq_refl eq_refl eq_refl) as (Hres & _ & Hev).
  split; [exact Hres|exact Hev].
Defined.

(** ** Prometheus exposition, again *)

Lemma append_assoc (a b c : string) : (a ++ b) ++ c = a ++ (b ++ c).
Proof.
  induction a as [|x a IH]; [reflexivity|].
  change (String x ((a ++ b) ++ c) = String x (a ++ (b ++ c))). now rewrite IH.
Qed.

Lemma append_nil_r (a : string) : a ++ "" = a.
Proof.
  induction a as [|x a IH]; [reflexivity|].
  change (String x (a ++ "") = String x a). now rewrite IH.
Qed.

Lemma appendMetrics_acc (metrics : list graphite.Metric) (s : string) :
  appendMetrics metrics s
  = match appendMetrics metrics "" with
    | Some out => Some (s ++ out)
    | None => None
    end.
Proof.
  revert s. induction metrics as [|m rest IH]; intros s; simpl.
  - now rewrite append_nil_r.
  - destruct (prometheusLine m) as [line|]; [|reflexivity].
    rewrite (IH (s ++ line)), (IH ("" ++ line)).
    destruct (appendMetrics rest "") as [out|]; [|reflexivity].
    change ("" ++ line) with line. now rewrite append_assoc.
Qed.

Lemma appendMetrics_app (a b : list graphite.Metric) (s : string) :
  appendMetrics (a ++ b)%list s
  = match appendMetrics a s with
    | Some out => appendMetrics b out
    | None => None
    end.
Proof.
  revert s. induction a as [|m rest IH]; intros s; simpl; [reflexivity|].
  destruct (prometheusLine m) as [line|]; [apply IH|reflexivity].
Qed.

(** X18. The exposition of a list of metrics is the concatenation of the
    expositions of its parts: GetPrometheusMetrics of [a ++ b] is the text
    for [a] followed by the text for [b], and it panics as soon as one of
    the two parts does. *)
Theorem GetPrometheusMetrics_app (a b : list graphite.Metric) :
  GetPrometheusMetrics (a ++ b)%list
  = match GetPrometheusMetrics a, GetPrometheusMetrics b with
    | Some outa, Some outb => Some (outa ++ outb)
    | _, _ => None
    end.
Proof.
  unfold GetPrometheusMetrics. rewrite appendMetrics_app.
  destruct (appendMetrics a "") as [outa|]; [|reflexivity].
  apply appendMetrics_acc.
Qed.

(** ** Tags *)

Lemma append_cons (c : ascii) (a b : string) : String c a ++ b = String c (a ++ b).
Proof. reflexivity. Qed.

Lemma length_append (a b : string) :
  String.length (a ++ b) = (String.length a + String.length b)%nat.
Proof.
  induction a as [|x a IH]; [reflexivity|].
  rewrite append_cons. simpl. now rewrite IH.
Qed.

Lemma substring_all (t : string) : substring 0 (String.length t) t = t.
Proof. induction t as [|x t IH]; simpl; [reflexivity|now rewrite IH]. Qed.

Lemma substring_append (a t : string) :
  substring (String.length a) (String.length t) (a ++ t) = t.
Proof.
  induction a as [|x a IH]; [apply substring_all|].
  rewrite append_cons. simpl. exact IH.
Qed.

Lemma substring_split (s : string) (n m : nat) :
  (n + m = String.length s)%nat ->
  s = substring 0 n s ++ substring n m s.
Proof.
  revert n m. induction s as [|x s IH]; intros n m Hlen; simpl in Hlen.
  - assert (n = 0%nat) by lia. assert (m = 0%nat) by lia. now subst.
  - destruct n as [|n].
    + simpl in Hlen. subst m. simpl. now rewrite substring_all.
    + simpl. rewrite append_cons. f_equal. apply IH. lia.
Qed.

(** [HasSuffix s suffix] holds exactly when [s] ends with [suffix]. *)
Lemma HasSuffix_spec (s suffix : string) :
  HasSuffix s suffix = true <-> exists a, s = a ++ suffix.
Proof.
  unfold HasSuffix. rewrite andb_true_iff, Nat.leb_le, String.eqb_eq. split.
  - intros [Hlen Hsub].
    exists (substring 0 (String.length s - String.length suffix) s).
    pose proof (substring_split s (String.length s - String.length suffix)
                  (String.length suffix) ltac:(lia)) as Hsplit.
    now rewrite Hsub in Hsplit.
  - intros [a ->]. rewrite length_append. split; [lia|].
    replace (String.length a + String.length suffix - String.length suffix)%nat
      with (String.length a) by lia.
    apply substring_append.
Qed.

Lemma prefix_spec (p s : string) :
  String.prefix p s = true <-> exists b, s = p ++ b.
Proof.
  revert s. induction p as [|x p IH]; intros s.
  - split; [intros _; now exists s|]. intros _. now destruct s.
  - destruct s as [|y s]; simpl.
    + split; [discriminate|]. intros [b Hb]. discriminate.
    + destruct (ascii_dec x y) as [->|Hne].
      * rewrite IH. split; intros [b Hb]; exists b.
        -- now rewrite append_cons, Hb.
        -- rewrite append_cons in Hb. now injection Hb.
      * split; [discriminate|]. intros [b Hb].
        rewrite append_cons in Hb. injection Hb as Hxy _. congruence.
Qed.

Lemma Contains_cons (x : ascii) (s substr : string) :
  Contains (String x s) substr
  = String.prefix substr (String x s) || Contains s substr.
Proof. reflexivity. Qed.

(** [Contains s substr] holds exactly when [substr] occurs in [s]. *)
Lemma Contains_spec (s substr : string) :
  Contains s substr = true <-> exists a b, s = a ++ substr ++ b.
Proof.
  induction s as [|x s IH].
  - change (Contains "" substr) with (String.prefix substr "" || false).
    rewrite orb_false_r, prefix_spec. split.
    + intros [b Hb]. now exists "", b.
    + intros (a & b & Hab). destruct a as [|y a]; [now exists b|].
      rewrite append_cons in Hab. discriminate.
  - rewrite Contains_cons, orb_true_iff, IH, prefix_spec. split.
    + intros [[b Hb]|(a & b & Hab)].
      * now exists "", b.
      * exists (String x a), b. now rewrite append_cons, Hab.
    + intros (a & b & Hab). destruct a as [|y a].
      * left. now exists b.
      * right. rewrite append_cons in Hab. injection Hab as _ Hab.
        now exists a, b.
Qed.

(** X19. IsFilterInTags is true exactly when the filter ends with one of
    the database tags, or the node is a compute node, the filter contains
    "spider" and there is at least one tag.  With no tag at all it is
    false, also for a compute node and a spider filter. *)
Theorem IsFilterInTags_iff (tags : list string) (IsCompute : bool) (filter : string) :
  (IsFilterInTags tags IsCompute filter = true
   <-> (exists tag, In tag tags /\ exists a, filter = a ++ tag)
       \/ (tags <> [] /\ IsCompute = true
           /\ exists a b, filter = a ++ "spider" ++ b))
  /\ IsFilterInTags [] IsCompute filter = false.
Proof.
  split; [|reflexivity].
  induction tags as [|tag rest IH]; simpl.
  - split; [discriminate|]. intros [(tag & [] & _)|(H & _)]. now contradiction H.
  - destruct (HasSuffix filter tag) eqn:Hs.
    + split; [|reflexivity]. intros _. left. exists tag.
      split; [now left|]. now apply HasSuffix_spec.
    + destruct (IsCompute && Contains filter "spider") eqn:Hc.
      * split; [|reflexivity]. intros _. right.
        apply andb_true_iff in Hc as [Hcomp Hsp].
        repeat split; [discriminate|exact Hcomp|now apply Contains_spec].
      * rewrite IH. split.
        -- intros [(t & Hin & Ht)|(_ & Hcomp & Hsp)].
           ++ left. exists t. split; [now right|exact Ht].
           ++ apply Contains_spec in Hsp. rewrite Hcomp, Hsp in Hc. discriminate.
        -- intros [(t & [<-|Hin] & Ht)|(_ & Hcomp & Hsp)].
           ++ apply HasSuffix_spec in Ht. rewrite Ht in Hs. discriminate.
           ++ left. now exists t.
           ++ apply Contains_spec in Hsp. rewrite Hcomp, Hsp in Hc. discriminate.
Qed.

(** ** Dictionary tables and query digests *)

(** X20. GetTableFromDict returns the table stored under the URI and no
    error when there is one; otherwise the zero table with the error
    "Empty" when the dictionary holds nothing at all and "Not found" when
    it holds other tables.  A table inserted under a URI is found under
    it. *)
Theorem GetTableFromDict_cases {Table : Type} (emptyTable : Table)
    (DictTables : gmap string Table) (URI : string) :
  (forall val, DictTables !! URI = Some val ->
     GetTableFromDict emptyTable DictTables URI = (val, None))
  /\ (DictTables = ∅ ->
      GetTableFromDict emptyTable DictTables URI = (emptyTable, Some "Empty"))
  /\ (DictTables !! URI = None -> DictTables <> ∅ ->
      GetTableFromDict emptyTable DictTables URI = (emptyTable, Some "Not found"))
  /\ (forall val,
      GetTableFromDict emptyTable (<[URI := val]> DictTables) URI = (val, None)).
Proof.
  unfold GetTableFromDict. split; [|split; [|split]].
  - intros val ->. reflexivity.
  - intros ->. now rewrite lookup_empty.
  - intros -> Hne.
    destruct (Nat.eqb_spec (size DictTables) 0) as [Hsize|Hsize]; [|reflexivity].
    apply map_size_empty_iff in Hsize. contradiction.
  - intros val. now rewrite lookup_insert_eq.
Qed.

Lemma GetTableFromDict_witness :
  GetTableFromDict 0%nat (<["shop.orders" := 7%nat]> ∅) "shop.orders" = (7%nat, None)
  /\ GetTableFromDict 0%nat (∅ : gmap string nat) "shop.orders" = (0%nat, Some "Empty")
  /\ GetTableFromDict 0%nat (<["shop.orders" := 7%nat]> ∅) "shop.items"
     = (0%nat, Some "Not found").
Proof.
  split; [|split].
  - apply (proj1 (GetTableFromDict_cases 0%nat (<["shop.orders" := 7%nat]> ∅)
                    "shop.orders")).
    reflexivity.
  - apply (proj1 (proj2 (GetTableFromDict_cases 0%nat ∅ "shop.orders"))).
    reflexivity.
  - apply (proj1 (proj2 (proj2 (GetTableFromDict_cases 0%nat
                                  (<["shop.orders" := 7%nat]> ∅) "shop.items")))).
    + reflexivity.
    + intros H. apply (f_equal (fun m => m !! "shop.orders")) in H.
      rewrite lookup_insert_eq, lookup_empty in H. discriminate.
Defined.

Lemma GetQueryFromPFSDigest_none (PFSQueries : list PFSQuery.t) (digest : string) :
  (forall v, In v PFSQueries -> PFSQuery.Digest v <> digest) ->
  GetQueryFromPFSDigest PFSQueries digest
  = ("", "", Some "Query digest not found in PFS").
Proof.
  induction PFSQueries as [|v rest IH]; simpl; intros Hnone; [reflexivity|].
  destruct (String.eqb_spec (PFSQuery.Digest v) digest) as [Heq|Hne].
  - exfalso. apply (Hnone v); auto.
  - apply IH. intros u Hu. apply Hnone. now right.
Qed.

Lemma GetQueryFromPFSDigest_first (before after : list PFSQuery.t)
    (v : PFSQuery.t) (digest : string) :
  PFSQuery.Digest v = digest ->
  (forall u, In u before -> PFSQuery.Digest u <> digest) ->
  GetQueryFromPFSDigest (before ++ v :: after)%list digest
  = (PFSQuery.Schema_name v, PFSQuery.Query v, None).
Proof.
  intros Hv. induction before as [|u rest IH]; simpl; intros Hnone.
  - now rewrite Hv, String.eqb_refl.
  - destruct (String.eqb_spec (PFSQuery.Digest u) digest) as [Heq|Hne].
    + exfalso. apply (Hnone u); auto.
    + apply IH. intros w Hw. apply Hnone. now right.
Qed.

(** X21. GetQueryAnalyzePFS looks the digest up before it asks the
    database: for a digest that no statement carries it returns the error
    "Query digest not found in PFS" whatever the database would answer,
    and otherwise it returns the database's answer for the schema and the
    text of the first statement with that digest. *)
Theorem GetQueryAnalyzePFS_cases
    (AnalyzeQuery : string -> string -> string * string * option error)
    (PFSQueries : list PFSQuery.t) (digest : string) :
  ((forall v, In v PFSQueries -> PFSQuery.Digest v <> digest) ->
   GetQueryAnalyzePFS AnalyzeQuery PFSQueries digest
   = ("", "", Some "Query digest not found in PFS"))
  /\ (forall before v after,
        PFSQueries = (before ++ v :: after)%list ->
        PFSQuery.Digest v = digest ->
        (forall u, In u before -> PFSQuery.Digest u <> digest) ->
        GetQueryAnalyzePFS AnalyzeQuery PFSQueries digest
        = AnalyzeQuery (PFSQuery.Schema_name v) (PFSQuery.Query v)).
Proof.
  unfold GetQueryAnalyzePFS. split.
  - intros Hnone. now rewrite (GetQueryFromPFSDigest_none _ _ Hnone).
  - intros before v after -> Hv Hnone.
    now rewrite (GetQueryFromPFSDigest_first _ _ _ _ Hv Hnone).
Qed.

Lemma GetQueryAnalyzePFS_witness :
  GetQueryAnalyzePFS Sample2.analyzer Sample2.pfs "d9"
  = ("", "", Some "Query digest not found in PFS")
  /\ GetQueryAnalyzePFS Sample2.analyzer Sample2.pfs "d2"
     = Sample2.analyzer "crm" "SELECT 2".
Proof.
  split.
  - apply (proj1 (GetQueryAnalyzePFS_cases Sample2.analyzer Sample2.pfs "d9")).
    intros v [<-|[<-|[]]]; discriminate.
  - apply (proj2 (GetQueryAnalyzePFS_cases Sample2.analyzer Sample2.pfs "d2")
             [PFSQuery.mk "d1" "shop" "SELECT 1"]
             (PFSQuery.mk "d2" "crm" "SELECT 2") []).
    + reflexivity.
    + reflexivity.
    + intros u [<-|[]]. discriminate.
Defined.

Lemma GetQueryFromSlowLogDigest_none (Buffer : list SlowLog.Message) (digest : string) :
  (forall v, In v Buffer -> SlowLog.Digest v <> digest) ->
  GetQueryFromSlowLogDigest Buffer digest
  = ("", "", Some "Query digest not found in PFS").
Proof.
  induction Buffer as [|v rest IH]; simpl; intros Hnone; [reflexivity|].
  destruct (String.eqb_spec (SlowLog.Digest v) digest) as [Heq|Hne].
  - exfalso. apply (Hnone v); auto.
  - apply IH. intros u Hu. apply Hnone. now right.
Qed.

Lemma GetQueryFromSlowLogDigest_first (before after : list SlowLog.Message)
    (v : SlowLog.Message) (digest : string) :
  SlowLog.Digest v = digest ->
  (forall u, In u before -> SlowLog.Digest u <> digest) ->
  GetQueryFromSlowLogDigest (before ++ v :: after)%list digest
  = (SlowLog.Db v, SlowLog.Query v, None).
Proof.
  intros Hv. induction before as [|u rest IH]; simpl; intros Hnone.
  - now rewrite Hv, String.eqb_refl.
  - destruct (String.eqb_spec (SlowLog.Digest u) digest) as [Heq|Hne].
    + exfalso. apply (Hnone u); auto.
    + apply IH. intros w Hw. apply Hnone. now right.
Qed.

(** X22. GetQueryAnalyzeSlowLog does the same over the slow-log buffer:
    a digest carried by no entry gives the error (worded "Query digest not
    found in PFS" here too) without asking the database, and otherwise the
    database's answer for the schema and text of the first entry with that
    digest. *)
Theorem GetQueryAnalyzeSlowLog_cases
    (AnalyzeQuery : string -> string -> string * string * option error)
    (Buffer : list SlowLog.Message) (digest : string) :
  ((forall v, In v Buffer -> SlowLog.Digest v <> digest) ->
   GetQueryAnalyzeSlowLog AnalyzeQuery Buffer digest
   = ("", "", Some "Query digest not found in PFS"))
  /\ (forall before v after,
        Buffer = (before ++ v :: after)%list ->
        SlowLog.Digest v = digest ->
        (forall u, In u before -> SlowLog.Digest u <> digest) ->
        GetQueryAnalyzeSlowLog AnalyzeQuery Buffer digest
        = AnalyzeQuery (SlowLog.Db v) (SlowLog.Query v)).
Proof.
  unfold GetQueryAnalyzeSlowLog. split.
  - intros Hnone. now rewrite (GetQueryFromSlowLogDigest_none _ _ Hnone).
  - intros before v after -> Hv Hnone.
    now rewrite (GetQueryFromSlowLogDigest_first _ _ _ _ Hv Hnone).
Qed.

Lemma GetQueryAnalyzeSlowLog_witness :
  GetQueryAnalyzeSlowLog Sample2.analyzer [] "d1"
  = ("", "", Some "Query digest not found in PFS")
  /\ GetQueryAnalyzeSlowLog Sample2.analyzer
       [SlowLog.mkMessage "d1" "shop" "SELECT 1"] "d1"
     = Sample2.analyzer "shop" "SELECT 1".
Proof.
  split.
  - apply (proj1 (GetQueryAnalyzeSlowLog_cases Sample2.analyzer [] "d1")).
    intros v [].
  - apply (proj2 (GetQueryAnalyzeSlowLog_cases Sample2.analyzer
                    [SlowLog.mkMessage "d1" "shop" "SELECT 1"] "d1")
             [] (SlowLog.mkMessage "d1" "shop" "SELECT 1") []).
    + reflexivity.
    + reflexivity.
    + intros u [].
Defined.

(** ** Status counters *)

Example ParseInt_samples :
  strconv.ParseInt "1500" = Some 1500%Z
  /\ strconv.ParseInt "-7" = Some (-7)%Z
  /\ strconv.ParseInt "+007" = Some 7%Z
  /\ strconv.ParseInt "" = None
  /\ strconv.ParseInt "-" = None
  /\ strconv.ParseInt "10.5" = None
  /\ strconv.ParseInt "9223372036854775807" = Some 9223372036854775807%Z
  /\ strconv.ParseInt "9223372036854775808" = None
  /\ strconv.ParseInt "-9223372036854775808" = Some (-9223372036854775808)%Z.
Proof. repeat split. Qed.

Example FormatInt_samples :
  strconv.FormatInt 0 = "0"
  /\ strconv.FormatInt 300 = "300"
  /\ strconv.FormatInt (-42) = "-42".
Proof. repeat split. Qed.

Lemma ParseInt_range (s : string) (z : Z) :
  strconv.ParseInt s = Some z -> int64_range z.
Proof.
  unfold strconv.ParseInt, int64_range.
  destruct (s =? ""); [discriminate|].
  destruct (match s with
            | "" => (false, s)
            | String c rest =>
                if Ascii.eqb c "+" then (false, rest)
                else if Ascii.eqb c "-" then (true, rest) else (false, s)
            end) as [neg digits].
  destruct (strconv.parseDigits digits) as [un|]; [|discriminate].
  cbv zeta.
  destruct neg; simpl.
  - destruct (N.ltb_spec (2 ^ 63) un); [discriminate|].
    intros [= <-]. change (2 ^ 63)%N with 9223372036854775808%N in *.
    change (2 ^ 63)%Z with 9223372036854775808%Z. lia.
  - destruct (N.leb_spec (2 ^ 63) un); [discriminate|].
    intros [= <-]. change (2 ^ 63)%N with 9223372036854775808%N in *.
    change (2 ^ 63)%Z with 9223372036854775808%Z. lia.
Qed.

Lemma wrap64_range (z : Z) : int64_range (wrap64 z).
Proof.
  unfold wrap64, int64_range.
  pose proof (Z.mod_pos_bound (z + 2 ^ 63) (2 ^ 64) ltac:(lia)). lia.
Qed.

Lemma wrap64_small (z : Z) : int64_range z -> wrap64 z = z.
Proof.
  unfold wrap64, int64_range. intros H.
  rewrite Z.mod_small by lia. lia.
Qed.

(** The difference of two [int64] wraps to zero only when they are equal. *)
Lemma wrap64_sub_zero (a b : Z) :
  int64_range a -> int64_range b -> (wrap64 (a - b) = 0%Z <-> a = b).
Proof.
  unfold wrap64, int64_range. intros Ha Hb. split.
  - intros H.
    pose proof (Z.div_mod (a - b + 2 ^ 63) (2 ^ 64) ltac:(lia)) as Hdm.
    assert (Hq : ((a - b + 2 ^ 63) / 2 ^ 64 = 0)%Z) by nia.
    rewrite Hq in Hdm. lia.
  - intros ->. rewrite Z.sub_diag. simpl. reflexivity.
Qed.

Lemma string_of_uint_first (d : Decimal.uint) :
  d <> Decimal.Nil ->
  exists c rest,
    NilEmpty.string_of_uint d = String c rest
    /\ Ascii.eqb c "+" = false /\ Ascii.eqb c "-" = false.
Proof.
  destruct d; [contradiction| | | | | | | | | |]; intros _; simpl;
    eexists; eexists; (split; [reflexivity|split; reflexivity]).
Qed.

Lemma parseDigits_to_uint (p : positive) :
  strconv.parseDigits (NilEmpty.string_of_uint (Pos.to_uint p)) = Some (Npos p).
Proof.
  unfold strconv.parseDigits.
  destruct (string_of_uint_first (Pos.to_uint p) (DecimalPos.Unsigned.to_uint_nonnil p))
    as (c & rest & E & _).
  assert (Hne : (NilEmpty.string_of_uint (Pos.to_uint p) =? "") = false)
    by now rewrite E.
  rewrite Hne, NilEmpty.usu.
  f_equal. apply DecimalPos.Unsigned.of_to.
Qed.

(** Parsing what FormatInt wrote gives the number back. *)
Lemma ParseInt_FormatInt (z : Z) :
  int64_range z -> strconv.ParseInt (strconv.FormatInt z) = Some z.
Proof.
  unfold int64_range. intros Hz.
  destruct z as [|p|p]; [reflexivity| |].
  - unfold strconv.FormatInt, strconv.ParseInt. simpl Z.to_int. simpl NilZero.string_of_int.
    unfold NilZero.string_of_uint.
    pose proof (DecimalPos.Unsigned.to_uint_nonnil p) as Hnn.
    pose proof (parseDigits_to_uint p) as Hp.
    destruct (string_of_uint_first _ Hnn) as (c & rest & E & Hplus & Hminus).
    destruct (Pos.to_uint p) eqn:Eu; [contradiction| | | | | | | | | |];
      rewrite E in *; simpl; rewrite Hplus, Hminus, Hp; cbv zeta; simpl;
      (destruct (N.leb_spec (2 ^ 63) (N.pos p)) as [Hge|Hlt]; [|reflexivity]);
      change (2 ^ 63)%N with 9223372036854775808%N in Hge;
      change (2 ^ 63)%Z with 9223372036854775808%Z in Hz; lia.
  - unfold strconv.FormatInt, strconv.ParseInt. simpl Z.to_int. simpl NilZero.string_of_int.
    unfold NilZero.string_of_uint.
    pose proof (DecimalPos.Unsigned.to_uint_nonnil p) as Hnn.
    pose proof (parseDigits_to_uint p) as Hp.
    destruct (Pos.to_uint p) eqn:Eu; [contradiction| | | | | | | | | |];
      simpl String.eqb; cbv iota beta; simpl Ascii.eqb; cbv iota beta;
      rewrite Hp; cbv zeta; simpl negb; simpl andb;
      (destruct (N.ltb_spec (2 ^ 63) (N.pos p)) as [Hgt|Hle]; [|reflexivity]);
      change (2 ^ 63)%N with 9223372036854775808%N in Hgt;
      change (2 ^ 63)%Z with 9223372036854775808%Z in Hz; lia.
Qed.

Example GetStatusDelta_sample :
  GetStatusDelta Sample2.statusNow Sample2.statusBefore
  = [ {| Variable_name := "QUERIES"; Value := "300" |} ].
Proof. vm_compute. reflexivity. Qed.

(** What one entry of [server.Status] contributes. *)
Lemma statusDeltaOf_In (PrevStatus : gmap string string) (k v : string)
    (r : StatusVariable) :
  In r (statusDeltaOf PrevStatus k v)
  <-> exists prev i1 i2,
        PrevStatus !! k = Some prev
        /\ strconv.ParseInt v = Some i1
        /\ strconv.ParseInt prev = Some i2
        /\ i1 <> i2
        /\ r = {| Variable_name := k;
                  Value := strconv.FormatInt (wrap64 (i1 - i2)) |}.
Proof.
  unfold statusDeltaOf.
  destruct (strconv.ParseInt v) as [i1|] eqn:E1.
  2:{ split; [intros []|]. intros (prev & a & b & _ & H & _). discriminate. }
  destruct (PrevStatus !! k) as [prev|] eqn:Ek; simpl.
  2:{ split; [intros []|]. intros (prev & a & b & H & _). discriminate. }
  destruct (strconv.ParseInt prev) as [i2|] eqn:E2.
  2:{ split; [intros []|]. intros (p & a & b & [= <-] & _ & H & _).
      rewrite E2 in H. discriminate. }
  pose proof (wrap64_sub_zero i2 i1 (ParseInt_range _ _ E2) (ParseInt_range _ _ E1))
    as Hz.
  destruct (Z.eqb_spec (wrap64 (i2 - i1)) 0) as [H0|H0]; simpl.
  - apply Hz in H0. subst i2. split; [intros []|].
    intros (p & a & b & [= <-] & [= <-] & Hb & Hne & _).
    rewrite E2 in Hb. injection Hb as <-. now contradiction Hne.
  - split.
    + intros [<-|[]]. exists prev, i1, i2. repeat split; try assumption.
      intros ->. apply H0. now apply Hz.
    + intros (p & a & b & [= <-] & [= <-] & Hb & _ & ->).
      rewrite E2 in Hb. injection Hb as <-. now left.
Qed.

Lemma GetStatusDelta_In (Status PrevStatus : gmap string string)
    (r : StatusVariable) :
  In r (GetStatusDelta Status PrevStatus)
  <-> exists k v prev i1 i2,
        Status !! k = Some v
        /\ PrevStatus !! k = Some prev
        /\ strconv.ParseInt v = Some i1
        /\ strconv.ParseInt prev = Some i2
        /\ i1 <> i2
        /\ r = {| Variable_name := k;
                  Value := strconv.FormatInt (wrap64 (i1 - i2)) |}.
Proof.
  unfold GetStatusDelta. rewrite in_flat_map. split.
  - intros ([k v] & Hin & Hr). simpl in Hr.
    apply list_elem_of_In, elem_of_map_to_list in Hin.
    apply statusDeltaOf_In in Hr as (prev & i1 & i2 & H).
    exists k, v, prev, i1, i2. tauto.
  - intros (k & v & prev & i1 & i2 & Hk & H).
    exists (k, v). split.
    + now apply list_elem_of_In, elem_of_map_to_list.
    + simpl. apply statusDeltaOf_In. exists prev, i1, i2. exact H.
Qed.

(** X23. GetStatusDelta lists exactly the counters whose current and
    previous values are both decimal int64 numbers and differ, each with
    the current value minus the previous one (wrapped to int64) written in
    decimal.  A counter that is not a number, that has no previous value,
    or that did not change gives no entry. *)
Theorem GetStatusDelta_entries (Status PrevStatus : gmap string string)
    (r : StatusVariable) :
  In r (GetStatusDelta Status PrevStatus)
  <-> exists k v prev i1 i2,
        Status !! k = Some v
        /\ PrevStatus !! k = Some prev
        /\ strconv.ParseInt v = Some i1
        /\ strconv.ParseInt prev = Some i2
        /\ i1 <> i2
        /\ r = {| Variable_name := k;
                  Value := strconv.FormatInt (wrap64 (i1 - i2)) |}.
Proof. apply GetStatusDelta_In. Qed.

(** X24. GetStatusDelta is empty when every counter either has no
    previous value or has the value it had: on the first poll and when
    nothing moved. *)
Theorem GetStatusDelta_nothing_changed (Status PrevStatus : gmap string string) :
  (forall k v, Status !! k = Some v ->
     PrevStatus !! k = None \/ PrevStatus !! k = Some v) ->
  GetStatusDelta Status PrevStatus = [].
Proof.
  intros Hsame.
  destruct (GetStatusDelta Status PrevStatus) as [|r rest] eqn:E; [reflexivity|].
  exfalso.
  assert (Hin : In r (GetStatusDelta Status PrevStatus)) by (rewrite E; now left).
  apply GetStatusDelta_In in Hin
    as (k & v & prev & i1 & i2 & Hk & Hp & H1 & H2 & Hne & _).
  destruct (Hsame k v Hk) as [Hnone|Hsome]; rewrite Hp in *; [discriminate|].
  injection Hsome as ->. rewrite H1 in H2. injection H2 as <-. now apply Hne.
Qed.

Lemma GetStatusDelta_first_poll_witness :
  GetStatusDelta Sample2.statusNow ∅ = []
  /\ GetStatusDelta Sample2.statusNow Sample2.statusNow = [].
Proof.
  split.
  - apply (GetStatusDelta_nothing_changed Sample2.statusNow ∅).
    intros k v _. left. apply lookup_empty.
  - apply (GetStatusDelta_nothing_changed Sample2.statusNow Sample2.statusNow).
    intros k v Hk. now right.
Defined.

Lemma flat_map_names {A : Type} (f : A -> list StatusVariable) (key : A -> string)
    (l : list A) :
  (forall x r, In r (f x) -> f x = [r] /\ Variable_name r = key x) ->
  NoDup (map key l) ->
  NoDup (map Variable_name (flat_map f l)).
Proof.
  intros Hf. induction l as [|x l IH]; simpl; intros Hnd; [constructor|].
  apply NoDup_cons in Hnd as [Hx Hl].
  destruct (f x) as [|r rest] eqn:E; simpl; [now apply IH|].
  destruct (Hf x r) as [Hone Hname]; [rewrite E; now left|].
  rewrite E in Hone. injection Hone as ->. simpl.
  apply NoDup_cons. split; [|now apply IH].
  rewrite Hname. intros Hin. apply Hx.
  apply list_elem_of_In in Hin. apply list_elem_of_In.
  apply in_map_iff in Hin as (r' & Hr' & Hin').
  apply in_flat_map in Hin' as (y & Hy & Hry).
  destruct (Hf y r' Hry) as [_ Hname']. rewrite Hname' in Hr'.
  rewrite <- Hr'. now apply in_map.
Qed.

(** X25. Every entry of GetStatusDelta names a different counter, and its
    value is a decimal number that parses back, with ParseInt, to a
    non-zero int64: the wrapped difference, which is the plain difference
    whenever that fits in an int64. *)
Theorem GetStatusDelta_values (Status PrevStatus : gmap string string) :
  NoDup (map Variable_name (GetStatusDelta Status PrevStatus))
  /\ forall r, In r (GetStatusDelta Status PrevStatus) ->
       exists i1 i2,
         Status !! Variable_name r = Some i1
         /\ PrevStatus !! Variable_name r = Some i2
         /\ exists n1 n2,
              strconv.ParseInt i1 = Some n1
              /\ strconv.ParseInt i2 = Some n2
              /\ strconv.ParseInt (Value r) = Some (wrap64 (n1 - n2))
              /\ wrap64 (n1 - n2) <> 0%Z
              /\ (int64_range (n1 - n2) ->
                  Value r = strconv.FormatInt (n1 - n2)).
Proof.
  split.
  - unfold GetStatusDelta.
    apply (flat_map_names _ (fun kv : string * string => kv.1)).
    + intros [k v] r Hr. simpl in *. unfold statusDeltaOf in *.
      destruct (strconv.ParseInt v); [|destruct Hr].
      destruct (strconv.ParseInt (default "" (PrevStatus !! k))); [|destruct Hr].
      destruct (negb _); [|destruct Hr].
      destruct Hr as [<-|[]]. split; reflexivity.
    + apply NoDup_fst_map_to_list.
  - intros r Hr.
    apply GetStatusDelta_In in Hr
      as (k & v & prev & i1 & i2 & Hk & Hp & H1 & H2 & Hne & ->). simpl.
    exists v, prev. repeat split; try assumption.
    exists i1, i2. repeat split; try assumption.
    + apply ParseInt_FormatInt, wrap64_range.
    + intros H0.
      apply (wrap64_sub_zero i1 i2 (ParseInt_range _ _ H1) (ParseInt_range _ _ H2))
        in H0. now apply Hne.
    + intros Hfit. now rewrite wrap64_small.
Qed.

Lemma GetStatusDelta_values_witness :
  exists i1 i2,
    Sample2.statusNow !! "QUERIES" = Some i1
    /\ Sample2.statusBefore !! "QUERIES" = Some i2
    /\ exists n1 n2,
         strconv.ParseInt i1 = Some n1
         /\ strconv.ParseInt i2 = Some n2
         /\ strconv.ParseInt "300" = Some (wrap64 (n1 - n2))
         /\ wrap64 (n1 - n2) <> 0%Z
         /\ (int64_range (n1 - n2) -> "300" = strconv.FormatInt (n1 - n2)).
Proof.
  apply (proj2 (GetStatusDelta_values Sample2.statusNow Sample2.statusBefore)
           {| Variable_name := "QUERIES"; Value := "300" |}).
  vm_compute. left. reflexivity.
Defined.
